(** * Simple-Web-App-Framework: request dispatch, body acquisition,
      response serialisation, header defaults and route registration.

    The development embeds [web_util.py] and [web_server.py] shallowly:
    Python dictionaries whose iteration order matters are association
    lists with in-place update, the per-method path tables are finite
    maps, exceptions are an explicit result type, the request stream is a
    list of segments, and the calls the server makes on its base class are
    recorded as a trace. *)

From Stdlib Require Import ZArith String Ascii List Lia Bool.
From Stdlib Require Import Strings.Byte DecimalString.
From stdpp Require Import base option list gmap strings.

Local Open Scope string_scope.
Local Open Scope Z_scope.

Abbreviation bytes := (list Byte.byte).

(** ** Exceptions and results *)

Inductive exn : Type :=
| AttributeError
| AssertionError
| ValueError
| KeyError
| OverflowError
| MemoryError
| BadGzipFile
| HandlerFault.

Inductive result (A : Type) : Type :=
| Ok (a : A)
| Raise (e : exn).
Arguments Ok {A} a.
Arguments Raise {A} e.

Definition rbind {A B : Type} (r : result A) (k : A -> result B) : result B :=
  match r with
  | Ok a => k a
  | Raise e => Raise e
  end.

Notation "x <~ r ;; k" := (rbind r (fun x => k))
  (at level 100, r at next level, right associativity).

(** ** Python values that can be dictionary keys *)

Inductive pyval : Type :=
| PyNone
| PyStr (s : string)
| PyInt (z : Z).

#[global] Instance pyval_eq_dec : EqDecision pyval.
Proof. solve_decision. Defined.

(** A hashable value or a list of them. *)
Inductive pyobj : Type :=
| ObjVal (v : pyval)
| ObjList (l : list pyval).

(** ** Python dictionaries with insertion order

    [d[k]] reads the entry for [k]; [d[k] = v] replaces the value in place
    when [k] is present and appends a new entry otherwise. *)

Fixpoint dict_get {K V : Type} `{EqDecision K} (d : list (K * V)) (k : K) : option V :=
  match d with
  | [] => None
  | (k', v) :: r => if decide (k' = k) then Some v else dict_get r k
  end.

Fixpoint dict_set {K V : Type} `{EqDecision K} (d : list (K * V)) (k : K) (v : V)
  : list (K * V) :=
  match d with
  | [] => [(k, v)]
  | (k', v') :: r =>
      if decide (k' = k) then (k', v) :: r else (k', v') :: dict_set r k v
  end.

Definition dict_keys {K V : Type} (d : list (K * V)) : list K := map fst d.

(** ** Strings *)

(** [needle in hay] for a string [needle]. *)
Fixpoint str_in (needle hay : string) : bool :=
  String.prefix needle hay ||
  match hay with
  | EmptyString => false
  | String _ hay' => str_in needle hay'
  end.

(** [s.replace(old, new)] for one-character [old] and [new]. *)
Fixpoint str_replace1 (old new : ascii) (s : string) : string :=
  match s with
  | EmptyString => EmptyString
  | String c s' =>
      String (if Ascii.eqb c old then new else c) (str_replace1 old new s')
  end.

(** [s[:-2]]. *)
Definition drop_last2 (s : string) : string :=
  substring 0 (String.length s - 2) s.

(** [str(n)] for a length. *)
Definition str_of_len (n : nat) : string :=
  NilZero.string_of_uint (Nat.to_uint n).

(** ** The Python run time

    Library functions whose definitions are not part of the repository.
    [int_of_str] and [int_of_bytes_16] answer [None] where [int] raises
    [ValueError]; [gzip_inflate] decodes the members of a gzip stream that
    starts with the magic number; [urlparse] gives the path and the query
    of a request target, and [None] where [urllib.parse.urlparse] raises
    [ValueError] (a target whose host part has an unmatched bracket);
    [read_limit] is the size from which on the allocator refuses the
    buffer that a read needs for its result. *)
Record PyRuntime : Type := {
  str_lower : string -> string;
  int_of_str : string -> option Z;
  int_of_bytes_16 : bytes -> option Z;
  gzip_inflate : bytes -> result bytes;
  urlparse : string -> option (string * string);
  parse_qs : string -> list (string * list string);
  read_limit : Z
}.

(** ** Data model *)

(** [ResponseContainer] of web_util.py. *)
Record ResponseContainer : Type := {
  status_code : Z;
  headers : list (string * string);
  body : bytes
}.

(** The per-request state of [WebAppHttpHandler] that handlers can read. *)
Record Request : Type := {
  command : string;
  path : string;
  req_headers : list (string * string);
  query : list (string * list string);
  primary_path : string;
  req_payload : bytes;
  client_address : string * Z
}.

(** What [cls(req, RESP_OK()).handle()] does: it returns a response
    object, or [None] when the class overrides [handle] by a method that
    returns nothing, or it lets an exception escape.  The [handle] of
    [WebPathHandler] itself never returns [None]: it reads
    [self.response.body], so that a [_handle] that replaces the response
    by [None] makes it raise [AttributeError]. *)
Inductive HandleResult : Type :=
| Returned (r : option ResponseContainer)
| Raised (e : exn).

(** A subclass of [WebPathHandler], after [__init_subclass__] has filled in
    the attributes the class body left out ([PATHS] and [REGEX_PATHS]
    default to the empty list, the two flags to [False]).  [handle] is the
    whole life cycle of an instance: construction from the request and the
    initial response, template loading, [_handle], body encoding. *)
Record HandlerClass : Type := {
  cls_name : string;
  cls_METHODS : list string;
  cls_PATHS : list string;
  cls_REGEX_PATHS : list string;
  DISABLE_HEAD_REQUESTS : bool;
  DISABLE_OPTIONS_REQUESTS : bool;
  handle : Request -> ResponseContainer -> HandleResult
}.

(** One per-method table: path to handler class, [None] being the
    no-handler entry of the default path. *)
Abbreviation table := (gmap string (option HandlerClass)).

(** Method to table, in the order the class body lists the methods. *)
Abbreviation method_map := (list (string * table)).

(** The class attributes of [WebPathMap]. *)
Record WebPathMap : Type := {
  PATHS : method_map;
  REGEX_PATHS : method_map
}.

Definition default_table : table := {["/" := None]}.

(** [WebPathMap] as its class body creates it. *)
Definition WebPathMap_init : WebPathMap :=
  {| PATHS :=
       [ ("CONNECT", default_table); ("DELETE", default_table);
         ("GET", default_table); ("PATCH", default_table);
         ("POST", default_table); ("PUT", default_table) ];
     REGEX_PATHS :=
       [ ("CONNECT", ∅); ("DELETE", ∅); ("GET", ∅);
         ("PATCH", ∅); ("POST", ∅); ("PUT", ∅) ] |}.

(** ** Response constructors

    Every constructor copies the process-wide default headers
    ([Default.headers()]) that are current when it is called. *)

Definition mk_response (dh : list (string * string)) (code : Z) : ResponseContainer :=
  {| status_code := code; headers := dh; body := [] |}.

Definition RESP_OK dh := mk_response dh 200.
Definition RESP_ACCEPTED dh := mk_response dh 202.
Definition RESP_NO_CONTENT dh := mk_response dh 204.
Definition RESP_BAD_REQUEST dh := mk_response dh 400.
Definition RESP_NOT_FOUND dh := mk_response dh 404.
Definition RESP_BAD_METHOD dh := mk_response dh 405.

(** ** [Default.set_headers] *)

(** The characters of [bad_chars]: space, colon, CR, LF, TAB, BS, NUL. *)
Definition bad_chars : list ascii :=
  [" "; ":"; "013"; "010"; "009"; "008"; "000"]%char.

Definition char_in (c : ascii) (s : string) : bool := str_in (String c EmptyString) s.

(** [header_value.replace('\n', ' ').replace('\r', ' ')]. *)
Definition clean_value (header_value : string) : string :=
  str_replace1 "013" " " (str_replace1 "010" " " header_value).

(** Some character of [bad_chars] occurs in the header name. *)
Definition has_bad_char (header : string) : bool :=
  existsb (fun bad_char => char_in bad_char header) bad_chars.

(** The loop over [headers.keys()]; [headers] is the copy being rewritten. *)
Fixpoint set_headers_loop (keys : list pyval) (headers : list (pyval * pyval))
  : result (list (pyval * pyval)) :=
  match keys with
  | [] => Ok headers
  | header :: keys' =>
      match header with
      | PyStr h =>
          if has_bad_char h then Raise AssertionError
          else
            match dict_get headers header with
            | Some (PyStr header_value) =>
                set_headers_loop keys'
                  (dict_set headers header
                     (PyStr (clean_value header_value)))
            | Some _ => Raise AssertionError
            | None => Raise KeyError
            end
      | _ => Raise AssertionError
      end
  end.

(** The entries of a dictionary whose keys and values are all strings. *)
Fixpoint str_items (d : list (pyval * pyval)) : list (string * string) :=
  match d with
  | [] => []
  | (PyStr k, PyStr v) :: r => (k, v) :: str_items r
  | _ :: r => str_items r
  end.

(** [Default.set_headers(headers)] on the stored defaults [_headers]:
    the new stored defaults and the value returned or the exception.  The
    argument is a dictionary by its type, so the first assertion holds;
    after a loop that raised nothing every key and value is a string, and
    [str_items] keeps every entry. *)
Definition set_headers (_headers : list (string * string)) (headers : list (pyval * pyval))
  : list (string * string) * result (list (string * string)) :=
  match set_headers_loop (dict_keys headers) headers with
  | Ok headers' => (str_items headers', Ok (str_items headers'))
  | Raise e => (_headers, Raise e)
  end.

(** ** Registration: [WebPathHandler.__init_subclass__] *)

(** The process state registration works on: the tables and the lines
    printed so far. *)
Record Registry : Type := {
  web_path_map : WebPathMap;
  stdout : list string
}.

(** The line printed when a binding is overwritten. *)
Definition warning_line (method p suffix : string) : string :=
  "[Warning] Overwriting " ++ method ++ " " ++ p ++ suffix.

(** [for path in paths: ... tbl[path] = cls], with the warning lines. *)
Fixpoint register_paths (cls : HandlerClass) (method suffix : string)
    (paths : list string) (t : table) (out : list string) : table * list string :=
  match paths with
  | [] => (t, out)
  | p :: paths' =>
      let out' :=
        match t !! p with
        | Some _ => (out ++ [warning_line method p suffix])%list
        | None => out
        end in
      register_paths cls method suffix paths' (<[p := Some cls]> t) out'
  end.

(** The body of [for method in cls.METHODS].  The message of the
    exception for an unsupported method reads [cls.METHOD], an attribute
    no handler class has, so that line raises [AttributeError]. *)
Definition register_method (cls : HandlerClass) (method : string) (r : Registry)
  : Registry * result unit :=
  match dict_get (PATHS (web_path_map r)) method with
  | None => (r, Raise AttributeError)
  | Some t =>
      let '(t', out1) := register_paths cls method "" (cls_PATHS cls) t (stdout r) in
      let paths1 := dict_set (PATHS (web_path_map r)) method t' in
      let r1 :=
        {| web_path_map :=
             {| PATHS := paths1; REGEX_PATHS := REGEX_PATHS (web_path_map r) |};
           stdout := out1 |} in
      match cls_REGEX_PATHS cls with
      | [] => (r1, Ok tt)
      | _ :: _ =>
          match dict_get (REGEX_PATHS (web_path_map r)) method with
          | None => (r1, Raise KeyError)
          | Some rt =>
              let '(rt', out2) :=
                register_paths cls method " (RegEx)" (cls_REGEX_PATHS cls) rt out1 in
              ({| web_path_map :=
                    {| PATHS := paths1;
                       REGEX_PATHS :=
                         dict_set (REGEX_PATHS (web_path_map r)) method rt' |};
                  stdout := out2 |}, Ok tt)
          end
      end
  end.

(** [for method in cls.METHODS: ...]: an exception ends the loop and
    leaves what was registered before it. *)
Fixpoint register_methods (cls : HandlerClass) (methods : list string) (r : Registry)
  : Registry * result unit :=
  match methods with
  | [] => (r, Ok tt)
  | method :: methods' =>
      match register_method cls method r with
      | (r', Ok _) => register_methods cls methods' r'
      | (r', Raise e) => (r', Raise e)
      end
  end.

(** [__init_subclass__] for the class [cls]. *)
Definition init_subclass (cls : HandlerClass) (r : Registry) : Registry * result unit :=
  if (length (cls_METHODS cls) =? 0)%nat then (r, Raise KeyError)
  else if (length (cls_PATHS cls) + length (cls_REGEX_PATHS cls) =? 0)%nat
  then (r, Raise KeyError)
  else register_methods cls (cls_METHODS cls) r.

(** The binding of a path under a method, if there is one. *)
Definition lookup_binding (w : WebPathMap) (method p : string)
  : option (option HandlerClass) :=
  match dict_get (PATHS w) method with
  | Some t => t !! p
  | None => None
  end.

(** The requirements on a method for its iteration to pass. *)
Definition method_supported (cls : HandlerClass) (w : WebPathMap) (method : string) : Prop :=
  is_Some (dict_get (PATHS w) method) /\
  (cls_REGEX_PATHS cls <> [] -> is_Some (dict_get (REGEX_PATHS w) method)).

(** ** The request stream [rfile]

    The bytes still to come, in the segments in which the transport
    delivers them.  [read(n)] with positive [n] returns at most [n] bytes
    and never crosses a segment boundary, so a read can be short; a
    buffered reader, which returns every byte asked for while the stream
    lasts, is a stream of one segment.  An empty result means the stream
    is exhausted. *)
Abbreviation Stream := (list bytes).

Fixpoint read_some (n : nat) (s : Stream) : bytes * Stream :=
  match s with
  | [] => ([], [])
  | [] :: s' => read_some n s'
  | seg :: s' =>
      (take n seg, if (n <? length seg)%nat then drop n seg :: s' else s')
  end.

(** The sizes from which on no [bytes] object exists on a 64-bit
    CPython: the largest index less the header of the object. *)
Definition MAX_BYTES : Z := 2 ^ 63 - 33.

(** [rfile.read(n)].  A size that does not fit an index, or that no
    [bytes] object can have, raises [OverflowError].  A positive size
    makes the reader allocate its result before it reads, and a size the
    allocator refuses raises [MemoryError]. *)
Definition rfile_read (py : PyRuntime) (n : Z) (s : Stream) : result (bytes * Stream) :=
  if (n <? - 2 ^ 63) || (MAX_BYTES <=? n) then Raise OverflowError
  else if n <? -1 then Raise ValueError
  else if n =? -1 then Ok (List.concat s, [])
  else if n =? 0 then Ok ([], s)
  else if read_limit py <=? n then Raise MemoryError
  else Ok (read_some (Z.to_nat n) s).

(** The bytes up to and including the first line feed. *)
Fixpoint take_line (d : bytes) : bytes :=
  match d with
  | [] => []
  | b :: d' => if Byte.eqb b x0a then [b] else b :: take_line d'
  end.

Fixpoint stream_drop (k : nat) (s : Stream) : Stream :=
  match s with
  | [] => []
  | seg :: s' =>
      if (k <? length seg)%nat then drop k seg :: s'
      else stream_drop (k - length seg) s'
  end.

(** [rfile.readline()]. *)
Definition rfile_readline (s : Stream) : bytes * Stream :=
  let line := take_line (List.concat s) in
  (line, stream_drop (length line) s).

(** ASCII white space, as [bytes.strip()] removes it. *)
Definition is_space_byte (b : Byte.byte) : bool :=
  match b with
  | x20 | x09 | x0a | x0b | x0c | x0d => true
  | _ => false
  end.

Fixpoint lstrip (d : bytes) : bytes :=
  match d with
  | [] => []
  | b :: d' => if is_space_byte b then lstrip d' else d
  end.

(** [b.strip()]. *)
Definition strip (d : bytes) : bytes := rev (lstrip (rev (lstrip d))).

(** ** Request headers

    [self.headers] keeps the header fields in arrival order; iterating it
    yields every field name, and [self.headers[name]] is the value of the
    first field whose name equals [name] up to case. *)
Fixpoint headers_getitem (py : PyRuntime) (hs : list (string * string)) (name : string)
  : option string :=
  match hs with
  | [] => None
  | (k, v) :: hs' =>
      if decide (str_lower py k = str_lower py name) then Some v
      else headers_getitem py hs' name
  end.

Definition COMPRESSION_SCHEMES : list string :=
  ["gzip"; "x-gzip"; "compress"; "deflate"; "br"].

(** Some scheme of [COMPRESSION_SCHEMES] occurs in the header value. *)
Definition names_scheme (v : string) : bool :=
  existsb (fun cs => str_in cs v) COMPRESSION_SCHEMES.
Arguments names_scheme : simpl never.

(** [int(self.headers[hdr])], [None] standing for [ValueError]. *)
Definition header_int (py : PyRuntime) (hs : list (string * string)) (hdr : string)
  : option Z :=
  match headers_getitem py hs hdr with
  | Some v => int_of_str py v
  | None => None
  end.

(** The first loop of [_init_response]. *)
Fixpoint has_content_len_loop (py : PyRuntime) (hs : list (string * string))
    (names : list string) (has_content_len_hdr : bool) : bool :=
  match names with
  | [] => has_content_len_hdr
  | hdr :: names' =>
      if decide (str_lower py hdr = "content-length") then
        match header_int py hs hdr with
        | Some _ => has_content_len_loop py hs names' true
        | None => has_content_len_loop py hs names' has_content_len_hdr
        end
      else has_content_len_loop py hs names' has_content_len_hdr
  end.

(** The three local variables the second loop sets. *)
Record BodyPlan : Type := {
  content_len : Z;
  compression : option string;
  chunked : bool
}.

Definition body_plan_step (py : PyRuntime) (hs : list (string * string))
    (st : BodyPlan) (hdr : string) : BodyPlan :=
  let hdr_lower := str_lower py hdr in
  if decide (hdr_lower = "content-length") then
    match header_int py hs hdr with
    | Some n => {| content_len := n; compression := compression st; chunked := chunked st |}
    | None => st
    end
  else if decide (hdr_lower = "content-encoding") then
    match headers_getitem py hs hdr with
    | Some v =>
        if names_scheme v
        then {| content_len := content_len st; compression := Some v; chunked := chunked st |}
        else st
    | None => st
    end
  else if decide (hdr_lower = "transfer-encoding") then
    match headers_getitem py hs hdr with
    | Some v =>
        if str_in "chunked" v
        then {| content_len := content_len st; compression := compression st; chunked := true |}
        else st
    | None => st
    end
  else st.

(** The second loop of [_init_response]. *)
Definition body_plan (py : PyRuntime) (hs : list (string * string)) : BodyPlan :=
  fold_left (body_plan_step py hs) (dict_keys hs)
    {| content_len := 0; compression := None; chunked := false |}.

(** ** Body acquisition *)

(** The [while] loop of the Content-Length branch, entered with the
    result [recv_data] of the read before it.  [None] means the fuel ran
    out before the loop ended. *)
Fixpoint content_length_loop (py : PyRuntime) (fuel : nat) (content_len : Z)
    (recv_data : bytes) (req_payload : bytes) (s : Stream) : option (result (bytes * Stream)) :=
  match fuel with
  | O => None
  | S fuel' =>
      match recv_data with
      | [] => Some (Ok (req_payload, s))
      | _ :: _ =>
          let req_payload' := (req_payload ++ recv_data)%list in
          let content_len' := content_len - Z.of_nat (length recv_data) in
          match rfile_read py content_len' s with
          | Raise e => Some (Raise e)
          | Ok (recv_data', s') =>
              content_length_loop py fuel' content_len' recv_data' req_payload' s'
          end
      end
  end.

(** The [while True] loop of the chunked branch. *)
Fixpoint chunked_loop (py : PyRuntime) (fuel : nat) (req_payload : bytes) (s : Stream)
  : option (result (bytes * Stream)) :=
  match fuel with
  | O => None
  | S fuel' =>
      let '(line, s1) := rfile_readline s in
      match int_of_bytes_16 py (strip line) with
      | None => Some (Raise ValueError)
      | Some chunk_sz =>
          match rfile_read py chunk_sz s1 with
          | Raise e => Some (Raise e)
          | Ok (data, s2) =>
              let req_payload' := (req_payload ++ data)%list in
              match rfile_read py 2 s2 with
              | Raise e => Some (Raise e)
              | Ok (_, s3) =>
                  if chunk_sz =? 0 then Some (Ok (req_payload', s3))
                  else chunked_loop py fuel' req_payload' s3
              end
          end
      end
  end.

(** [gzip.decompress]: empty input gives empty output, input that does
    not start with the magic number 1f 8b is refused, and the members of
    anything else are decoded by the run time. *)
Definition gzip_decompress (py : PyRuntime) (data : bytes) : result bytes :=
  match data with
  | [] => Ok []
  | x1f :: x8b :: _ => gzip_inflate py data
  | _ => Raise BadGzipFile
  end.

(** What the server has of a request before [_init_response] runs. *)
Record RawRequest : Type := {
  raw_command : string;
  raw_path : string;
  raw_headers : list (string * string);
  raw_client_address : string * Z
}.

(** The body as read from the stream, before any decompression. *)
Definition acquire_body (py : PyRuntime) (fuel : nat) (plan : BodyPlan) (s : Stream)
  : option (result (bytes * Stream)) :=
  if 0 <? content_len plan then
    match rfile_read py (content_len plan) s with
    | Raise e => Some (Raise e)
    | Ok (recv_data, s') =>
        content_length_loop py fuel (content_len plan) recv_data [] s'
    end
  else if chunked plan then chunked_loop py fuel [] s
  else Some (Ok ([], s)).

Definition decompress_body (py : PyRuntime) (plan : BodyPlan) (payload : bytes)
  : result bytes :=
  match compression plan with
  | Some c => if str_in "gzip" c then gzip_decompress py payload else Ok payload
  | None => Ok payload
  end.

(** The request as handlers see it, once the target is parsed and the body
    is known. *)
Definition make_request (py : PyRuntime) (raw : RawRequest)
    (parsed_path : string * string) (payload : bytes) : Request :=
  {| command := raw_command raw;
     path := raw_path raw;
     req_headers := raw_headers raw;
     query := parse_qs py (snd parsed_path);
     primary_path := fst parsed_path;
     req_payload := payload;
     client_address := raw_client_address raw |}.

(** [_init_response]: the request as handlers see it and the rest of the
    stream.  The target is parsed first, before anything is read. *)
Definition _init_response (py : PyRuntime) (fuel : nat) (raw : RawRequest) (s : Stream)
  : option (result (Request * Stream)) :=
  match urlparse py (raw_path raw) with
  | None => Some (Raise ValueError)
  | Some parsed_path =>
      let has_content_len_hdr :=
        has_content_len_loop py (raw_headers raw) (dict_keys (raw_headers raw)) false in
      if bool_decide (raw_command raw = "POST") || bool_decide (raw_command raw = "PUT")
         || has_content_len_hdr
      then
        let plan := body_plan py (raw_headers raw) in
        match acquire_body py fuel plan s with
        | None => None
        | Some (Raise e) => Some (Raise e)
        | Some (Ok (payload, s')) =>
            match decompress_body py plan payload with
            | Raise e => Some (Raise e)
            | Ok payload' => Some (Ok (make_request py raw parsed_path payload', s'))
            end
        end
      else Some (Ok (make_request py raw parsed_path [], s))
  end.

(** ** Query parameters: [get_url_query_param] *)

(** The case-insensitive search over [self.query.keys()]. *)
Fixpoint query_find_lower (py : PyRuntime) (q : list (string * list string))
    (keys : list string) (key : string) : option (list string) :=
  match keys with
  | [] => None
  | k :: keys' =>
      if decide (str_lower py k = key) then dict_get q k
      else query_find_lower py q keys' key
  end.

(** A list of strings as a Python object. *)
Definition str_list (l : list string) : pyobj := ObjList (map PyStr l).

(** [get_url_query_param]: the first branch returns [self.query[key]]
    when the mode is case-sensitive and the key is present; otherwise the
    case-insensitive mode searches the keys; what is left returns
    [[default_val]]. *)
Definition get_url_query_param (py : PyRuntime) (self : Request) (key : string)
    (default_val : pyval) (case_sensitive : bool) : pyobj :=
  match (if case_sensitive then dict_get (query self) key else None) with
  | Some vs => str_list vs
  | None =>
      if negb case_sensitive then
        match query_find_lower py (query self) (dict_keys (query self)) (str_lower py key) with
        | Some vs => str_list vs
        | None => ObjList [default_val]
        end
      else ObjList [default_val]
  end.

(** ** Response serialisation: [_send_pending_response]

    The calls made on the base class and on the output stream, in order.
    The lines printed on the console are left out; the one of them that
    can fail, the look-up of the reason phrase, is kept as that failure. *)
Inductive wire_call : Type :=
| send_response (code : Z)
| super_send_header (keyword value : string)
| end_headers
| wfile_write (data : bytes).

(** The overriding [send_header]: with the banner disabled a [Server]
    header is dropped. *)
Definition send_header (py : PyRuntime) (banner : option string) (keyword value : string)
  : list wire_call :=
  if bool_decide (str_lower py keyword = "server") && bool_decide (banner = None)
  then []
  else [super_send_header keyword value].

Definition is_head_or_options (c : string) : bool :=
  bool_decide (c = "HEAD") || bool_decide (c = "OPTIONS").

(** The response headers after the Content-Length assignment. *)
Definition final_headers (pending_resp : ResponseContainer) : list (string * string) :=
  if (0 <? length (body pending_resp))%nat
  then dict_set (headers pending_resp) "Content-Length"
         (str_of_len (length (body pending_resp)))
  else headers pending_resp.

(** The status codes that have an entry in [http.client.responses], the
    table of reason phrases of the standard library. *)
Definition http_client_responses : list Z :=
  [ 100; 101; 102; 103;
    200; 201; 202; 203; 204; 205; 206; 207; 208; 226;
    300; 301; 302; 303; 304; 305; 307; 308;
    400; 401; 402; 403; 404; 405; 406; 407; 408; 409; 410; 411; 412; 413;
    414; 415; 416; 417; 418; 421; 422; 423; 424; 425; 426; 428; 429; 431; 451;
    500; 501; 502; 503; 504; 505; 506; 507; 508; 510; 511 ].

(** [status_code in http.client.responses]. *)
Definition has_reason_phrase (status_code : Z) : bool :=
  existsb (Z.eqb status_code) http_client_responses.

(** [_send_pending_response]: the calls made, and how the method ends.
    The line that prints the status reads the reason phrase from
    [http.client.responses] after the call of [send_response] and before
    the loop over the response headers, and raises [KeyError] for a status
    code the table does not hold. *)
Definition _send_pending_response (py : PyRuntime) (banner : option string)
    (cmd : string) (pending_resp : ResponseContainer) : list wire_call * result unit :=
  if has_reason_phrase (status_code pending_resp) then
    (([send_response (status_code pending_resp)]
      ++ flat_map (fun kv => send_header py banner (fst kv) (snd kv))
           (final_headers pending_resp)
      ++ [end_headers]
      ++ (if negb (is_head_or_options cmd) && (0 <? length (body pending_resp))%nat
          then [wfile_write (body pending_resp)] else []))%list,
     Ok tt)
  else ([send_response (status_code pending_resp)], Raise KeyError).

(** ** The dispatcher: the loop of [_build_and_send_response] *)

(** [path_handler.ATTR]: reading an attribute of [None] raises. *)
Definition getattr_flag (attr : HandlerClass -> bool) (path_handler : option HandlerClass)
  : result bool :=
  match path_handler with
  | Some h => Ok (attr h)
  | None => Raise AttributeError
  end.

(** [a and b], where [b] is evaluated only when [a] is true. *)
Definition py_and (a : bool) (b : result bool) : result bool :=
  if a then b else Ok false.

(** [a or b], where [b] is evaluated only when [a] is false. *)
Definition py_or (a : result bool) (b : result bool) : result bool :=
  x <~ a ;; if x then Ok true else b.

(** The inner loop that builds the [Allow] header before its last two
    characters are cut off. *)
Fixpoint allow_loop (ms : method_map) (p : string) (acc : string) : string :=
  match ms with
  | [] => acc
  | (method, t) :: ms' =>
      match t !! p with
      | Some _ => allow_loop ms' p (acc ++ method ++ ", ")
      | None => allow_loop ms' p acc
      end
  end.

Definition allow_header (all : method_map) (p : string) : string :=
  drop_last2 (allow_loop all p "").

(** The body of the first branch of the loop; every path through it
    ends the loop. *)
Definition matched_branch (all : method_map) (dh : list (string * string))
    (self : Request) (path_handler : option HandlerClass) : result ResponseContainer :=
  disabled <~ py_or
      (py_and (bool_decide (command self = "HEAD"))
              (getattr_flag DISABLE_HEAD_REQUESTS path_handler))
      (py_and (bool_decide (command self = "OPTIONS"))
              (getattr_flag DISABLE_OPTIONS_REQUESTS path_handler)) ;;
  if disabled then Ok (RESP_BAD_METHOD dh)
  else if bool_decide (command self = "OPTIONS") then
    let r := RESP_NO_CONTENT dh in
    let hs := dict_set (headers r) "Allow" "" in
    Ok {| status_code := status_code r;
          headers := dict_set hs "Allow" (allow_header all (primary_path self));
          body := body r |}
  else
    match path_handler with
    | None => Ok (RESP_OK dh)
    | Some cls =>
        match handle cls self (RESP_OK dh) with
        | Returned (Some r) => Ok r
        | Returned None => Raise AssertionError
        | Raised e => Raise e
        end
    end.

(** [for m in PATHS: ...], with [pending] the value of
    [self.pending_resp] on entry to the iteration. *)
Fixpoint scan (all : method_map) (dh : list (string * string)) (self : Request)
    (ms : method_map) (pending : option ResponseContainer)
  : result (option ResponseContainer) :=
  match ms with
  | [] => Ok pending
  | (m, t) :: ms' =>
      match t !! primary_path self with
      | Some path_handler =>
          if bool_decide (m = command self) || is_head_or_options (command self)
          then r <~ matched_branch all dh self path_handler ;; Ok (Some r)
          else scan all dh self ms' (Some (RESP_BAD_METHOD dh))
      | None => scan all dh self ms' pending
      end
  end.

(** The response [_build_and_send_response] hands to
    [_send_pending_response]. *)
Definition dispatch (all : method_map) (dh : list (string * string)) (self : Request)
  : result ResponseContainer :=
  pending <~ scan all dh self all None ;;
  match pending with
  | Some r => Ok r
  | None => Ok (RESP_NOT_FOUND dh)
  end.

(** The process-wide configuration a request is served under. *)
Record Server : Type := {
  routes : WebPathMap;
  default_headers : list (string * string);
  banner : option string
}.

(** [_build_and_send_response]: the calls made for the request, and how
    the method ends ([Ok tt], or the exception that ends the handling). *)
Definition _build_and_send_response (py : PyRuntime) (fuel : nat) (srv : Server)
    (raw : RawRequest) (s : Stream) : option (list wire_call * result unit) :=
  match _init_response py fuel raw s with
  | None => None
  | Some (Raise e) => Some ([], Raise e)
  | Some (Ok (self, _)) =>
      match dispatch (PATHS (routes srv)) (default_headers srv) self with
      | Raise e => Some ([], Raise e)
      | Ok pending_resp =>
          Some (_send_pending_response py (banner srv) (command self) pending_resp)
      end
  end.

(** ** Reading the dispatcher's outcome *)

(** What the dispatcher does with a binding once it is selected, for a
    request that is neither HEAD nor OPTIONS. *)
Definition binding_outcome (dh : list (string * string)) (self : Request)
    (b : option HandlerClass) : result ResponseContainer :=
  match b with
  | None => Ok (RESP_OK dh)
  | Some cls =>
      match handle cls self (RESP_OK dh) with
      | Returned (Some r) => Ok r
      | Returned None => Raise AssertionError
      | Raised e => Raise e
      end
  end.

(** Some table of [ms] holds the path. *)
Definition path_known (ms : method_map) (p : string) : bool :=
  existsb (fun mt => bool_decide (is_Some (snd mt !! p))) ms.

(** The first binding of the path in a table whose method is [c]. *)
Fixpoint own_binding (ms : method_map) (c p : string) : option (option HandlerClass) :=
  match ms with
  | [] => None
  | (m, t) :: ms' =>
      match t !! p with
      | Some b => if bool_decide (m = c) then Some b else own_binding ms' c p
      | None => own_binding ms' c p
      end
  end.

(** The first binding of the path in scan order, with its method. *)
Fixpoint first_binding (ms : method_map) (p : string)
  : option (string * option HandlerClass) :=
  match ms with
  | [] => None
  | (m, t) :: ms' =>
      match t !! p with
      | Some b => Some (m, b)
      | None => first_binding ms' p
      end
  end.

(** The methods whose table holds the path, in scan order. *)
Fixpoint allowed_methods (ms : method_map) (p : string) : list string :=
  match ms with
  | [] => []
  | (m, t) :: ms' =>
      match t !! p with
      | Some _ => m :: allowed_methods ms' p
      | None => allowed_methods ms' p
      end
  end.

(** The response to an OPTIONS request that is not refused. *)
Definition options_response (all : method_map) (dh : list (string * string))
    (p : string) : ResponseContainer :=
  {| status_code := 204;
     headers := dict_set (dict_set dh "Allow" "") "Allow" (allow_header all p);
     body := [] |}.

(** Every listed method followed by the separator, as the loop builds it. *)
Fixpoint with_trailing_separators (l : list string) : string :=
  match l with
  | [] => ""
  | m :: l' => m ++ ", " ++ with_trailing_separators l'
  end.

(** The six methods in the order of [WebPathMap.PATHS]. *)
Definition METHOD_ORDER : list string :=
  ["CONNECT"; "DELETE"; "GET"; "PATCH"; "POST"; "PUT"].

(** The value of the first header field with the lower-cased name [lname]. *)
Fixpoint first_value (py : PyRuntime) (hs : list (string * string)) (lname : string)
  : option string :=
  match hs with
  | [] => None
  | (k, v) :: hs' =>
      if decide (str_lower py k = lname) then Some v else first_value py hs' lname
  end.

(** The request asks for gzip decompression of its body. *)
Definition gzip_encoded (py : PyRuntime) (hs : list (string * string)) : bool :=
  match first_value py hs "content-encoding" with
  | Some v => str_in "gzip" v
  | None => false
  end.

(** The request announces a chunked body. *)
Definition announces_chunked (py : PyRuntime) (hs : list (string * string)) : bool :=
  match first_value py hs "transfer-encoding" with
  | Some v => str_in "chunked" v
  | None => false
  end.

(** The declared Content-Length, when the first such field is numeric. *)
Definition declared_length (py : PyRuntime) (hs : list (string * string)) : option Z :=
  match first_value py hs "content-length" with
  | Some v => int_of_str py v
  | None => None
  end.

(** One chunk on the wire: its size line (ending in a line feed), its
    payload and the two bytes that follow the payload. *)
Record Chunk : Type := {
  size_line : bytes;
  payload : bytes;
  tail : bytes
}.

Definition chunk_wire (c : Chunk) : bytes :=
  (size_line c ++ payload c ++ tail c)%list.

(** A size line is one line, and it announces [n] bytes. *)
Definition size_line_ok (py : PyRuntime) (line : bytes) (n : nat) : Prop :=
  (exists l, line = (l ++ [x0a])%list /\ x0a ∉ l) /\
  int_of_bytes_16 py (strip line) = Some (Z.of_nat n).

Definition chunk_ok (py : PyRuntime) (c : Chunk) : Prop :=
  size_line_ok py (size_line c) (length (payload c)) /\
  payload c <> [] /\
  length (tail c) = 2%nat.

(** Some field name equals [lname] up to case. *)
Definition names_have (py : PyRuntime) (names : list string) (lname : string) : bool :=
  existsb (fun h => bool_decide (str_lower py h = lname)) names.

(** The value the loop leaves in [compression] when a Content-Encoding
    field is present. *)
Definition compression_of (py : PyRuntime) (hs : list (string * string)) : option string :=
  match first_value py hs "content-encoding" with
  | Some v => if names_scheme v then Some v else None
  | None => None
  end.

(** A size that [read] serves: a [bytes] object of the size exists and
    the allocator grants it. *)
Definition can_read (py : PyRuntime) (n : Z) : Prop :=
  n < MAX_BYTES /\ n < read_limit py.

(** The stream is read through a buffer that holds the bytes [w]. *)
Definition buffered (s : Stream) (w : bytes) : Prop :=
  s = [w] \/ (s = [] /\ w = []).

(** The bytes of a chunked body on the wire: the chunks, the size line of
    the last, empty chunk, and what follows it. *)
Definition chunked_wire (cs : list Chunk) (last_line after : bytes) : bytes :=
  (List.concat (map chunk_wire cs) ++ last_line ++ after)%list.

(** ** A run time for the examples

    ASCII lower-casing, decimal and hexadecimal numerals made of digits
    only, a request target parsed into scheme, host part, path, query and
    fragment, a query string split at ampersands and equals signs, and an
    allocator that grants less than 4 GiB.  On the inputs of the examples
    (ASCII names, plain numerals, no percent escapes, no semicolon in a
    target, no body that starts with the gzip magic number) these agree
    with the Python functions. *)

Definition ascii_lower (c : ascii) : ascii :=
  let n := nat_of_ascii c in
  if ((65 <=? n) && (n <=? 90))%nat then ascii_of_nat (n + 32) else c.

Fixpoint lower_ascii_string (s : string) : string :=
  match s with
  | EmptyString => EmptyString
  | String c s' => String (ascii_lower c) (lower_ascii_string s')
  end.

Definition digit_value (base : Z) (c : ascii) : option Z :=
  let n := Z.of_nat (nat_of_ascii c) in
  let v :=
    if (48 <=? n) && (n <=? 57) then Some (n - 48)
    else if (97 <=? n) && (n <=? 102) then Some (n - 87)
    else if (65 <=? n) && (n <=? 70) then Some (n - 55)
    else None in
  match v with
  | Some d => if d <? base then Some d else None
  | None => None
  end.

Fixpoint digits_value (base : Z) (acc : Z) (s : list ascii) : option Z :=
  match s with
  | [] => Some acc
  | c :: s' =>
      match digit_value base c with
      | Some d => digits_value base (acc * base + d) s'
      | None => None
      end
  end.

Definition numeral (base : Z) (s : list ascii) : option Z :=
  match s with
  | [] => None
  | _ :: _ => digits_value base 0 s
  end.

Fixpoint split_at_char (c : ascii) (s : string) : string * string :=
  match s with
  | EmptyString => (EmptyString, EmptyString)
  | String x s' =>
      if Ascii.eqb x c then (EmptyString, s')
      else let '(a, b) := split_at_char c s' in (String x a, b)
  end.

Definition is_alpha (c : ascii) : bool :=
  let n := nat_of_ascii c in
  (((65 <=? n) && (n <=? 90)) || ((97 <=? n) && (n <=? 122)))%nat.

(** The characters a URL scheme is made of. *)
Definition is_scheme_char (c : ascii) : bool :=
  let n := nat_of_ascii c in
  is_alpha c || ((48 <=? n) && (n <=? 57))%nat
  || Ascii.eqb c "+" || Ascii.eqb c "-" || Ascii.eqb c ".".

(** What follows the first colon, when only scheme characters precede it. *)
Fixpoint after_scheme (s : string) : option string :=
  match s with
  | EmptyString => None
  | String c s' =>
      if Ascii.eqb c ":" then Some s'
      else if is_scheme_char c then after_scheme s' else None
  end.

(** The target without its scheme, if it starts with one. *)
Definition strip_scheme (url : string) : string :=
  match url with
  | EmptyString => url
  | String c _ =>
      if is_alpha c then
        match after_scheme url with
        | Some rest => rest
        | None => url
        end
      else url
  end.

(** The host part, which ends before the first slash, question mark or
    hash sign, and what follows it. *)
Fixpoint split_netloc (s : string) : string * string :=
  match s with
  | EmptyString => (EmptyString, EmptyString)
  | String c s' =>
      if Ascii.eqb c "/" || Ascii.eqb c "?" || Ascii.eqb c "#" then (EmptyString, s)
      else let '(a, b) := split_netloc s' in (String c a, b)
  end.

(** The path and the query of what follows the host part. *)
Definition path_and_query (url : string) : string * string :=
  split_at_char "?" (fst (split_at_char "#" url)).

(** [urlparse]: a host part in which one of the two brackets occurs
    without the other is refused. *)
Definition urlparse_plain (target : string) : option (string * string) :=
  let url := strip_scheme target in
  match url with
  | String c1 (String c2 rest) =>
      if Ascii.eqb c1 "/" && Ascii.eqb c2 "/" then
        let '(netloc, url') := split_netloc rest in
        if xorb (char_in "[" netloc) (char_in "]" netloc) then None
        else Some (path_and_query url')
      else Some (path_and_query url)
  | _ => Some (path_and_query url)
  end.

Fixpoint split_on (c : ascii) (s : string) : list string :=
  match s with
  | EmptyString => [EmptyString]
  | String x s' =>
      if Ascii.eqb x c then EmptyString :: split_on c s'
      else match split_on c s' with
           | [] => [String x EmptyString]
           | w :: ws => String x w :: ws
           end
  end.

Definition query_add (q : list (string * list string)) (k v : string)
  : list (string * list string) :=
  match dict_get q k with
  | Some vs => dict_set q k (vs ++ [v])%list
  | None => dict_set q k [v]
  end.

Definition parse_qs_plain (qs : string) : list (string * list string) :=
  fold_left
    (fun q piece =>
       let '(k, v) := split_at_char "=" piece in
       match v with
       | EmptyString => q
       | _ => query_add q k v
       end)
    (split_on "&" qs) [].

Definition example_runtime : PyRuntime :=
  {| str_lower := lower_ascii_string;
     int_of_str := fun s => numeral 10 (list_ascii_of_string s);
     int_of_bytes_16 := fun b => numeral 16 (map ascii_of_byte b);
     gzip_inflate := fun _ => Raise BadGzipFile;
     urlparse := urlparse_plain;
     parse_qs := parse_qs_plain;
     read_limit := 2 ^ 32 |}.

(** A request as the dispatcher sees it, for the examples. *)
Definition request_of (cmd p : string) : Request :=
  {| command := cmd; path := p; req_headers := []; query := [];
     primary_path := p; req_payload := []; client_address := ("127.0.0.1", 50000) |}.

Definition raw_request_of (cmd p : string) (hs : list (string * string)) : RawRequest :=
  {| raw_command := cmd; raw_path := p; raw_headers := hs;
     raw_client_address := ("127.0.0.1", 50000) |}.

Definition bytes_of (s : string) : bytes := list_byte_of_string s.

(** ** Example handlers and tables

    The first two classes of endpoints.py, a class bound to POST only,
    and the tables after their registration. *)

Definition ExampleEndpoint01 : HandlerClass :=
  {| cls_name := "ExampleEndpoint01";
     cls_METHODS := ["GET"];
     cls_PATHS := ["/example01"];
     cls_REGEX_PATHS := [];
     DISABLE_HEAD_REQUESTS := false;
     DISABLE_OPTIONS_REQUESTS := false;
     handle := fun _ response =>
       Returned (Some {| status_code := status_code response;
                         headers := dict_set (headers response) "Content-Type" "text/plain";
                         body := bytes_of "Hello world!" |}) |}.

Definition ExampleEndpoint02 : HandlerClass :=
  {| cls_name := "ExampleEndpoint02";
     cls_METHODS := ["POST"; "PUT"];
     cls_PATHS := ["/example2"; "/example02"];
     cls_REGEX_PATHS := [];
     DISABLE_HEAD_REQUESTS := false;
     DISABLE_OPTIONS_REQUESTS := false;
     handle := fun req_handler response =>
       Returned (Some {| status_code := status_code response;
                         headers := dict_set (headers response) "Content-Type"
                                      "application/octet-stream";
                         body := req_payload req_handler |}) |}.

(** A second class for the route of [ExampleEndpoint01]. *)
Definition Replacement01 : HandlerClass :=
  {| cls_name := "Replacement01";
     cls_METHODS := ["GET"];
     cls_PATHS := ["/example01"];
     cls_REGEX_PATHS := [];
     DISABLE_HEAD_REQUESTS := false;
     DISABLE_OPTIONS_REQUESTS := false;
     handle := fun _ response =>
       Returned (Some {| status_code := 202;
                         headers := headers response;
                         body := bytes_of "replaced" |}) |}.

(** A class bound to POST only. *)
Definition SubmitEndpoint : HandlerClass :=
  {| cls_name := "SubmitEndpoint";
     cls_METHODS := ["POST"];
     cls_PATHS := ["/submit"];
     cls_REGEX_PATHS := [];
     DISABLE_HEAD_REQUESTS := false;
     DISABLE_OPTIONS_REQUESTS := false;
     handle := fun req_handler response =>
       Returned (Some {| status_code := 201;
                         headers := headers response;
                         body := req_payload req_handler |}) |}.

Definition registry_init : Registry :=
  {| web_path_map := WebPathMap_init; stdout := [] |}.

(** The registry after the class statements of the three examples. *)
Definition registry_examples : Registry :=
  (init_subclass SubmitEndpoint
     (init_subclass ExampleEndpoint02
        (init_subclass ExampleEndpoint01 registry_init).1).1).1.

(** The tables [registry_examples] holds, written out. *)
Definition example_paths : method_map :=
  [ ("CONNECT", default_table);
    ("DELETE", default_table);
    ("GET", <["/example01" := Some ExampleEndpoint01]> default_table);
    ("PATCH", default_table);
    ("POST", <["/submit" := Some SubmitEndpoint]>
               (<["/example02" := Some ExampleEndpoint02]>
                  (<["/example2" := Some ExampleEndpoint02]> default_table)));
    ("PUT", <["/example02" := Some ExampleEndpoint02]>
              (<["/example2" := Some ExampleEndpoint02]> default_table)) ].

Definition CRLF : bytes := [x0d; x0a].

(** The chunk "hello" as a client sends it. *)
Definition hello_chunk : Chunk :=
  {| size_line := (bytes_of "5" ++ CRLF)%list;
     payload := bytes_of "hello";
     tail := CRLF |}.

(** A request with query [a=1&a=2]. *)
Definition query_request : Request :=
  {| command := "GET"; path := "/example03?a=1&a=2"; req_headers := [];
     query := [("a", ["1"; "2"])]; primary_path := "/example03";
     req_payload := []; client_address := ("127.0.0.1", 50000) |}.


Definition post_with (hs : list (string * string)) : RawRequest :=
  raw_request_of "POST" "/example2" hs.

Definition zero_line : bytes := (bytes_of "0" ++ CRLF)%list.

(** A header value with a line feed in it. *)
Definition two_lines : string :=
  "line1" ++ String "010" "line2".

(** ** Request header lookup: [get_request_header]

    [key in self.headers] and [self.headers[key]] both compare field names
    up to case. *)
Definition get_request_header (py : PyRuntime) (self : Request) (key : string)
    (default_val : pyval) : pyval :=
  match headers_getitem py (req_headers self) key with
  | Some v => PyStr v
  | None => default_val
  end.

(** ** Reading further properties *)

(** A call that sends one header field. *)
Definition is_header_call (c : wire_call) : Prop :=
  exists keyword value, c = super_send_header keyword value.

(** A dictionary of strings as the Python dictionary it is. *)
Definition py_items (items : list (string * string)) : list (pyval * pyval) :=
  map (fun kv => (PyStr (fst kv), PyStr (snd kv))) items.

(** The stored form of an accepted mapping: every value cleaned. *)
Definition cleaned (items : list (string * string)) : list (string * string) :=
  map (fun kv => (fst kv, clean_value (snd kv))) items.

(** Every key and value is a string and no key holds a character of
    [bad_chars]. *)
Definition acceptable (headers : list (pyval * pyval)) : bool :=
  forallb (fun kv =>
             match kv with
             | (PyStr k, PyStr _) => negb (has_bad_char k)
             | _ => false
             end) headers.

(** The binding of a pattern under a method in the regex tables. *)
Definition lookup_regex_binding (w : WebPathMap) (method p : string)
  : option (option HandlerClass) :=
  match dict_get (REGEX_PATHS w) method with
  | Some t => t !! p
  | None => None
  end.

(** The class passes the checks of [__init_subclass__] on the tables [w]. *)
Definition registrable (cls : HandlerClass) (w : WebPathMap) : Prop :=
  cls_METHODS cls <> [] /\
  (cls_PATHS cls <> [] \/ cls_REGEX_PATHS cls <> []) /\
  forall m, m ∈ cls_METHODS cls -> method_supported cls w m.

(** The response [ExampleEndpoint02] builds for the body [data] from the
    default headers [dh]. *)
Definition echo_response (dh : list (string * string)) (data : bytes) : ResponseContainer :=
  {| status_code := 200;
     headers := dict_set dh "Content-Type" "application/octet-stream";
     body := data |}.

(** A request with the header fields of a browser that names the same
    field twice in different case. *)
Definition mixed_case_request : Request :=
  {| command := "GET"; path := "/example03"; 
     req_headers := [("Host", "localhost"); ("x-seanp", "first"); ("X-SeanP", "second")];
     query := [("SeanP", ["v1"; "v2"]); ("other", ["w"])];
     primary_path := "/example03";
     req_payload := []; client_address := ("127.0.0.1", 50000) |}.

(** The configuration of the examples. *)
Definition example_server : Server :=
  {| routes := web_path_map registry_examples;
     default_headers := [("X-Example-Default-Header", "SeanP"); ("Connection", "close")];
     banner := Some "Python Web Server by Sean Pesce" |}.

(** A class that overrides [handle] by a method that returns nothing. *)
Definition BrokenEndpoint : HandlerClass :=
  {| cls_name := "BrokenEndpoint";
     cls_METHODS := ["GET"];
     cls_PATHS := ["/broken"];
     cls_REGEX_PATHS := [];
     DISABLE_HEAD_REQUESTS := false;
     DISABLE_OPTIONS_REQUESTS := false;
     handle := fun _ _ => Returned None |}.

Definition broken_paths : method_map :=
  PATHS (web_path_map (init_subclass BrokenEndpoint registry_init).1).

(** The calls that answer [HEAD /example01] on the example server. *)
Definition head_example_calls : list wire_call :=
  [ send_response 200;
    super_send_header "X-Example-Default-Header" "SeanP";
    super_send_header "Connection" "close";
    super_send_header "Content-Type" "text/plain";
    super_send_header "Content-Length" "12";
    end_headers ].



(** * Facts about the dispatcher *)

Lemma is_head_or_options_false c :
  is_head_or_options c = false -> c <> "HEAD" /\ c <> "OPTIONS".
Proof.
  unfold is_head_or_options. intros H.
  apply orb_false_iff in H as [H1 H2].
  apply bool_decide_eq_false in H1. apply bool_decide_eq_false in H2. done.
Qed.

Lemma matched_branch_plain all dh self b :
  is_head_or_options (command self) = false ->
  matched_branch all dh self b = binding_outcome dh self b.
Proof.
  intros H. apply is_head_or_options_false in H as [H1 H2].
  unfold matched_branch, binding_outcome, py_or, py_and.
  rewrite !bool_decide_eq_false_2 by done. reflexivity.
Qed.

Lemma scan_plain all dh self ms pending :
  is_head_or_options (command self) = false ->
  scan all dh self ms pending =
    match own_binding ms (command self) (primary_path self) with
    | Some b => r <~ binding_outcome dh self b ;; Ok (Some r)
    | None =>
        Ok (if path_known ms (primary_path self)
            then Some (RESP_BAD_METHOD dh) else pending)
    end.
Proof.
  intros Hc. revert pending.
  induction ms as [|[m t] ms IH]; intros pending; simpl; [done|].
  destruct (t !! primary_path self) as [b|] eqn:Hb.
  - rewrite Hc, orb_false_r.
    destruct (bool_decide (m = command self)).
    + by rewrite matched_branch_plain.
    + rewrite IH. rewrite bool_decide_eq_true_2 by eauto. simpl.
      destruct (own_binding ms _ _); [done|].
      by destruct (path_known ms _).
  - rewrite IH. rewrite bool_decide_eq_false_2; [done|].
    intros [? ?]; congruence.
Qed.

Lemma own_binding_None ms c p :
  (forall t, (c, t) ∈ ms -> t !! p = None) -> own_binding ms c p = None.
Proof.
  induction ms as [|[m t] ms IH]; intros H; simpl; [done|].
  destruct (t !! p) as [b|] eqn:Hb.
  - case_bool_decide as Hm.
    + subst m. rewrite (H t) in Hb; [done | left].
    + apply IH. intros t' Ht'. apply H. by right.
  - apply IH. intros t' Ht'. apply H. by right.
Qed.

Lemma own_binding_Some ms c p t b :
  NoDup (map fst ms) -> (c, t) ∈ ms -> t !! p = Some b ->
  own_binding ms c p = Some b.
Proof.
  induction ms as [|[m t'] ms IH]; intros Hnd Hin Hb; simpl.
  - by apply elem_of_nil in Hin.
  - simpl in Hnd. apply NoDup_cons in Hnd as [Hm Hnd].
    apply elem_of_cons in Hin as [Heq | Hin].
    + inversion Heq; subst. rewrite Hb. by rewrite bool_decide_eq_true_2.
    + assert (m <> c) as Hne.
      { intros ->. apply Hm. apply list_elem_of_fmap. by exists (c, t). }
      rewrite (bool_decide_eq_false_2 _ Hne).
      rewrite (IH Hnd Hin Hb). by destruct (t' !! p).
Qed.

Lemma path_known_true ms p m t :
  (m, t) ∈ ms -> is_Some (t !! p) -> path_known ms p = true.
Proof.
  intros Hin Hs. unfold path_known. apply existsb_exists.
  exists (m, t). split; [by apply list_elem_of_In|].
  by apply bool_decide_eq_true_2.
Qed.

Lemma own_binding_perm ms ms' c p :
  NoDup (map fst ms) -> ms ≡ₚ ms' -> own_binding ms c p = own_binding ms' c p.
Proof.
  intros Hnd Hp.
  assert (NoDup (map fst ms')) as Hnd'.
  { eapply NoDup_Permutation_proper; [|exact Hnd]. by rewrite Hp. }
  destruct (own_binding ms c p) as [b|] eqn:E.
  - assert (exists t, (c, t) ∈ ms /\ t !! p = Some b) as (t & Hin & Hb).
    { clear -E. induction ms as [|[m t] ms IH]; simpl in E; [done|].
      destruct (t !! p) as [b'|] eqn:Hb.
      - case_bool_decide as Hm.
        + inversion E; subst. exists t. split; [left | done].
        + destruct (IH E) as (t' & ? & ?). exists t'. split; [by right | done].
      - destruct (IH E) as (t' & ? & ?). exists t'. split; [by right | done]. }
    symmetry. eapply own_binding_Some; [done | | done]. by rewrite <- Hp.
  - symmetry. apply own_binding_None. intros t Hin.
    rewrite <- Hp in Hin.
    destruct (t !! p) as [b|] eqn:Hb; [|done].
    by rewrite (own_binding_Some ms c p t b) in E.
Qed.

Lemma path_known_perm ms ms' p :
  ms ≡ₚ ms' -> path_known ms p = path_known ms' p.
Proof.
  intros Hp. unfold path_known.
  apply eq_true_iff_eq. rewrite !existsb_exists.
  split; intros (x & Hin & Hx); exists x; (split; [|done]);
    apply list_elem_of_In; apply list_elem_of_In in Hin;
    first [by rewrite <- Hp | by rewrite Hp].
Qed.

Lemma dispatch_plain all dh self :
  is_head_or_options (command self) = false ->
  dispatch all dh self =
    match own_binding all (command self) (primary_path self) with
    | Some b => binding_outcome dh self b
    | None =>
        Ok (if path_known all (primary_path self)
            then RESP_BAD_METHOD dh else RESP_NOT_FOUND dh)
    end.
Proof.
  intros Hc. unfold dispatch. rewrite scan_plain by done.
  destruct (own_binding all _ _) as [b|].
  - by destruct (binding_outcome dh self b).
  - simpl. by destruct (path_known all _).
Qed.

(** C1: a request that is neither HEAD nor OPTIONS gets 405 when its path
    is held by the table of some method but not by the table of its own
    method; when the table of its own method holds the path, that binding
    decides the response (the bare 200 for the no-handler entry, the
    handler's response otherwise), whatever the other tables hold; and the
    response does not depend on the order of the per-method tables. *)
Theorem C1_method_not_allowed_and_own_binding_first
    (all : method_map) (dh : list (string * string)) (self : Request)
    (Hplain : command self <> "HEAD" /\ command self <> "OPTIONS")
    (Hkeys : NoDup (map fst all)) :
  ((exists m t, (m, t) ∈ all /\ is_Some (t !! primary_path self)) ->
   (forall t, (command self, t) ∈ all -> t !! primary_path self = None) ->
   dispatch all dh self = Ok (RESP_BAD_METHOD dh) /\
   status_code (RESP_BAD_METHOD dh) = 405) /\
  (forall t b, (command self, t) ∈ all -> t !! primary_path self = Some b ->
   dispatch all dh self =
     match b with
     | None => Ok (RESP_OK dh)
     | Some cls =>
         match handle cls self (RESP_OK dh) with
         | Returned (Some r) => Ok r
         | Returned None => Raise AssertionError
         | Raised e => Raise e
         end
     end) /\
  (forall all', all ≡ₚ all' -> dispatch all' dh self = dispatch all dh self).
Proof.
  destruct Hplain as [H1 H2].
  assert (is_head_or_options (command self) = false) as Hc.
  { unfold is_head_or_options. by rewrite !bool_decide_eq_false_2. }
  split; [|split].
  - intros (m & t & Hin & Hs) Hown. split; [|done].
    rewrite dispatch_plain by done.
    rewrite own_binding_None by done.
    by rewrite (path_known_true _ _ m t).
  - intros t b Hin Hb. rewrite dispatch_plain by done.
    by rewrite (own_binding_Some all _ _ t b).
  - intros all' Hp. rewrite !dispatch_plain by done.
    rewrite <- (own_binding_perm all all') by done.
    by rewrite <- (path_known_perm all all').
Qed.

(** ** HEAD and OPTIONS requests *)

Lemma scan_head_options all dh self ms pending :
  is_head_or_options (command self) = true ->
  scan all dh self ms pending =
    match first_binding ms (primary_path self) with
    | Some (_, b) => r <~ matched_branch all dh self b ;; Ok (Some r)
    | None => Ok pending
    end.
Proof.
  intros Hc. revert pending.
  induction ms as [|[m t] ms IH]; intros pending; simpl; [done|].
  destruct (t !! primary_path self) as [b|]; [|apply IH].
  by rewrite Hc, orb_true_r.
Qed.

Lemma dispatch_head_options all dh self :
  is_head_or_options (command self) = true ->
  dispatch all dh self =
    match first_binding all (primary_path self) with
    | Some (_, b) => matched_branch all dh self b
    | None => Ok (RESP_NOT_FOUND dh)
    end.
Proof.
  intros Hc. unfold dispatch. rewrite scan_head_options by done.
  destruct (first_binding all _) as [[m b]|]; [|done].
  by destruct (matched_branch all dh self b).
Qed.

Lemma first_binding_split ms1 m t ms2 p b :
  (forall m' t', (m', t') ∈ ms1 -> t' !! p = None) ->
  t !! p = Some b ->
  first_binding (ms1 ++ (m, t) :: ms2) p = Some (m, b).
Proof.
  intros Hbefore Hb.
  induction ms1 as [|[m1 t1] ms1 IH]; simpl.
  - by rewrite Hb.
  - rewrite (Hbefore m1 t1) by left.
    apply IH. intros m' t' Hin. apply (Hbefore m' t'). by right.
Qed.

Lemma matched_branch_head all dh self b :
  command self = "HEAD" ->
  matched_branch all dh self b =
    match b with
    | None => Raise AttributeError
    | Some cls =>
        if DISABLE_HEAD_REQUESTS cls then Ok (RESP_BAD_METHOD dh)
        else binding_outcome dh self (Some cls)
    end.
Proof.
  intros Hc. unfold matched_branch, py_or, py_and. rewrite Hc.
  destruct b as [cls|]; simpl; [|done].
  by destruct (DISABLE_HEAD_REQUESTS cls).
Qed.

Lemma matched_branch_options all dh self b :
  command self = "OPTIONS" ->
  matched_branch all dh self b =
    match b with
    | None => Raise AttributeError
    | Some cls =>
        if DISABLE_OPTIONS_REQUESTS cls then Ok (RESP_BAD_METHOD dh)
        else Ok (options_response all dh (primary_path self))
    end.
Proof.
  intros Hc. unfold matched_branch, py_or, py_and. rewrite Hc.
  destruct b as [cls|]; simpl; [|done].
  by destruct (DISABLE_OPTIONS_REQUESTS cls).
Qed.

(** *** The value of the [Allow] header *)

Lemma string_app_cons (x : ascii) (a b : string) :
  String x a ++ b = String x (a ++ b).
Proof. reflexivity. Qed.

Lemma string_app_nil_l (b : string) : "" ++ b = b.
Proof. reflexivity. Qed.

Lemma string_app_assoc (a b c : string) : (a ++ b) ++ c = a ++ (b ++ c).
Proof.
  induction a as [|x a IH]; [done|].
  by rewrite !string_app_cons, IH.
Qed.

Lemma string_app_nil_r (a : string) : a ++ "" = a.
Proof.
  induction a as [|x a IH]; [done|].
  by rewrite string_app_cons, IH.
Qed.

Lemma string_length_app (a b : string) :
  String.length (a ++ b) = (String.length a + String.length b)%nat.
Proof.
  induction a as [|x a IH]; [done|].
  rewrite string_app_cons. simpl. by rewrite IH.
Qed.

Lemma substring_0_app (a b : string) (k : nat) :
  substring 0 (String.length a + k) (a ++ b) = a ++ substring 0 k b.
Proof.
  induction a as [|x a IH]; [done|].
  rewrite !string_app_cons. simpl. by rewrite IH.
Qed.

Lemma drop_last2_app (a b : string) :
  (2 <= String.length b)%nat -> drop_last2 (a ++ b) = a ++ drop_last2 b.
Proof.
  intros Hb. unfold drop_last2. rewrite string_length_app.
  replace (String.length a + String.length b - 2)%nat
    with (String.length a + (String.length b - 2))%nat by lia.
  apply substring_0_app.
Qed.

Lemma allow_loop_spec ms p acc :
  allow_loop ms p acc = acc ++ with_trailing_separators (allowed_methods ms p).
Proof.
  revert acc. induction ms as [|[m t] ms IH]; intros acc; simpl.
  - by rewrite string_app_nil_r.
  - destruct (t !! p); [|apply IH].
    rewrite IH. cbn [allowed_methods with_trailing_separators].
    by rewrite !string_app_assoc.
Qed.

Lemma with_trailing_separators_length m l :
  (2 <= String.length (with_trailing_separators (m :: l)))%nat.
Proof.
  cbn [with_trailing_separators]. rewrite !string_length_app. simpl. lia.
Qed.

Lemma drop_last2_trailing l :
  drop_last2 (with_trailing_separators l) = String.concat ", " l.
Proof.
  induction l as [|m l IH]; [done|].
  destruct l as [|m' l].
  - cbn [with_trailing_separators String.concat].
    rewrite string_app_nil_r, drop_last2_app by (simpl; lia).
    apply string_app_nil_r.
  - change (with_trailing_separators (m :: m' :: l))
      with (m ++ ", " ++ with_trailing_separators (m' :: l)).
    rewrite <- string_app_assoc.
    rewrite drop_last2_app by apply with_trailing_separators_length.
    rewrite IH. by rewrite string_app_assoc.
Qed.

Lemma allow_header_spec all p :
  allow_header all p = String.concat ", " (allowed_methods all p).
Proof.
  unfold allow_header. rewrite allow_loop_spec. simpl.
  apply drop_last2_trailing.
Qed.

Lemma allowed_methods_elem ms p m :
  m ∈ allowed_methods ms p <-> exists t, (m, t) ∈ ms /\ is_Some (t !! p).
Proof.
  induction ms as [|[m1 t1] ms IH]; simpl.
  - split; [intros H; by apply elem_of_nil in H|].
    intros (t & H & _). by apply elem_of_nil in H.
  - destruct (t1 !! p) as [b|] eqn:Hb.
    + rewrite elem_of_cons, IH. split.
      * intros [-> | (t & Hin & Hs)].
        -- exists t1. split; [left | by rewrite Hb].
        -- exists t. split; [by right | done].
      * intros (t & Hin & Hs). apply elem_of_cons in Hin as [Heq | Hin].
        -- inversion Heq; subst. by left.
        -- right. by exists t.
    + rewrite IH. split.
      * intros (t & Hin & Hs). exists t. split; [by right | done].
      * intros (t & Hin & Hs). apply elem_of_cons in Hin as [Heq | Hin].
        -- inversion Heq; subst. rewrite Hb in Hs. by destruct Hs.
        -- by exists t.
Qed.

Lemma allowed_methods_sublist ms p : allowed_methods ms p `sublist_of` map fst ms.
Proof.
  induction ms as [|[m t] ms IH]; simpl; [constructor|].
  destruct (t !! p); by constructor.
Qed.

Lemma allowed_methods_NoDup ms p :
  NoDup (map fst ms) -> NoDup (allowed_methods ms p).
Proof. intros H. eapply sublist_NoDup; [exact H | apply allowed_methods_sublist]. Qed.

Lemma dict_get_set_eq {K V : Type} `{EqDecision K} (d : list (K * V)) (k : K) (v : V) :
  dict_get (dict_set d k v) k = Some v.
Proof.
  induction d as [|[k' v'] d IH]; simpl.
  - by rewrite decide_True.
  - destruct (decide (k' = k)) as [->|Hne]; simpl.
    + by rewrite decide_True.
    + by rewrite decide_False.
Qed.

Lemma dict_get_set_ne {K V : Type} `{EqDecision K} (d : list (K * V)) (k k' : K) (v : V) :
  k <> k' -> dict_get (dict_set d k v) k' = dict_get d k'.
Proof.
  intros Hne. induction d as [|[k1 v1] d IH]; simpl.
  - by rewrite decide_False.
  - destruct (decide (k1 = k)) as [->|Hne1]; simpl.
    + by rewrite !decide_False.
    + destruct (decide (k1 = k')); [done | apply IH].
Qed.

(** An OPTIONS request whose first binding is a handler class that does
    not disable OPTIONS gets 204 with the methods holding the path. *)
Lemma options_on_handler_class all dh self m cls :
  command self = "OPTIONS" ->
  first_binding all (primary_path self) = Some (m, Some cls) ->
  DISABLE_OPTIONS_REQUESTS cls = false ->
  exists r, dispatch all dh self = Ok r /\ status_code r = 204 /\ body r = [] /\
    dict_get (headers r) "Allow"
      = Some (String.concat ", " (allowed_methods all (primary_path self))).
Proof.
  intros Hc Hf Hd.
  exists (options_response all dh (primary_path self)).
  rewrite dispatch_head_options by (unfold is_head_or_options; by rewrite Hc).
  rewrite Hf, matched_branch_options, Hd by done.
  repeat split. simpl. by rewrite dict_get_set_eq, allow_header_spec.
Qed.

(** A request that is neither HEAD nor OPTIONS and whose own table binds
    the path to the no-handler entry gets the bare 200. *)
Lemma no_handler_entry_plain all dh self t :
  command self <> "HEAD" -> command self <> "OPTIONS" ->
  NoDup (map fst all) ->
  (command self, t) ∈ all -> t !! primary_path self = Some None ->
  dispatch all dh self = Ok {| status_code := 200; headers := dh; body := [] |}.
Proof.
  intros H1 H2 Hnd Hin Hb.
  rewrite dispatch_plain by (unfold is_head_or_options; by rewrite !bool_decide_eq_false_2).
  by rewrite (own_binding_Some all _ _ t None).
Qed.

(** C2 (failing input): on the tables as the class body creates them, an
    OPTIONS request for "/" selects the no-handler entry of CONNECT and
    the flag test reads an attribute of [None]: no 204 response is built,
    the dispatcher raises. *)
Theorem C2_options_on_no_handler_entry_raises (dh : list (string * string)) :
  first_binding (PATHS WebPathMap_init) "/" = Some ("CONNECT", None) /\
  allowed_methods (PATHS WebPathMap_init) "/"
    = ["CONNECT"; "DELETE"; "GET"; "PATCH"; "POST"; "PUT"] /\
  dispatch (PATHS WebPathMap_init) dh (request_of "OPTIONS" "/") = Raise AttributeError.
Proof. by vm_compute. Qed.

(** C3 (failing input): on the tables as the class body creates them, a
    HEAD request for "/" selects the no-handler entry of CONNECT and the
    flag test reads an attribute of [None]: the dispatcher raises instead
    of answering 200, while a GET request for the same path gets the bare
    200 with the default headers. *)
Theorem C3_head_on_no_handler_entry_raises (dh : list (string * string)) :
  dispatch (PATHS WebPathMap_init) dh (request_of "HEAD" "/") = Raise AttributeError /\
  dispatch (PATHS WebPathMap_init) dh (request_of "GET" "/")
    = Ok {| status_code := 200; headers := dh; body := [] |}.
Proof. by vm_compute. Qed.

(** C10: for a HEAD or OPTIONS request the tables are scanned in the order
    CONNECT, DELETE, GET, PATCH, POST, PUT and the first table that holds
    the path supplies the binding, whatever its method: when that binding
    is a handler class, HEAD runs it unless it disables HEAD (then 405) and
    OPTIONS answers 204 unless it disables OPTIONS (then 405); when it is
    the no-handler entry the flag test raises.  So a HEAD request for a
    path that only the POST table holds runs the POST handler. *)
Theorem C10_head_options_take_first_table
    (all : method_map) (dh : list (string * string)) (self : Request)
    (Horder : map fst all = METHOD_ORDER) :
  (forall (ms1 ms2 : method_map) m t b,
     all = (ms1 ++ (m, t) :: ms2)%list ->
     (forall m' t', (m', t') ∈ ms1 -> t' !! primary_path self = None) ->
     t !! primary_path self = Some b ->
     (command self = "HEAD" ->
      dispatch all dh self =
        match b with
        | None => Raise AttributeError
        | Some cls =>
            if DISABLE_HEAD_REQUESTS cls then Ok (RESP_BAD_METHOD dh)
            else match handle cls self (RESP_OK dh) with
                 | Returned (Some r) => Ok r
                 | Returned None => Raise AssertionError
                 | Raised e => Raise e
                 end
        end) /\
     (command self = "OPTIONS" ->
      dispatch all dh self =
        match b with
        | None => Raise AttributeError
        | Some cls =>
            if DISABLE_OPTIONS_REQUESTS cls then Ok (RESP_BAD_METHOD dh)
            else Ok (options_response all dh (primary_path self))
        end)) /\
  (forall tP cls,
     command self = "HEAD" ->
     (forall m' t', (m', t') ∈ all -> m' <> "POST" -> t' !! primary_path self = None) ->
     ("POST", tP) ∈ all -> tP !! primary_path self = Some (Some cls) ->
     dispatch all dh self =
       if DISABLE_HEAD_REQUESTS cls then Ok (RESP_BAD_METHOD dh)
       else match handle cls self (RESP_OK dh) with
            | Returned (Some r) => Ok r
            | Returned None => Raise AssertionError
            | Raised e => Raise e
            end).
Proof.
  split.
  - intros ms1 ms2 m t b -> Hbefore Hb. split; intros Hc.
    + rewrite dispatch_head_options by (unfold is_head_or_options; by rewrite Hc).
      rewrite (first_binding_split ms1 m t ms2 _ b) by done.
      by rewrite matched_branch_head.
    + rewrite dispatch_head_options by (unfold is_head_or_options; by rewrite Hc).
      rewrite (first_binding_split ms1 m t ms2 _ b) by done.
      by rewrite matched_branch_options.
  - intros tP cls Hc Honly Hin Hb.
    rewrite dispatch_head_options by (unfold is_head_or_options; by rewrite Hc).
    destruct all as [|[m1 t1] [|[m2 t2] [|[m3 t3] [|[m4 t4] [|[m5 t5] [|[m6 t6] [|? ?]]]]]]];
      try discriminate Horder.
    unfold METHOD_ORDER in Horder. simpl in Horder. simplify_eq.
    assert (t5 = tP) as ->.
    { repeat (apply elem_of_cons in Hin as [Hin | Hin]; [by simplify_eq|]).
      by apply elem_of_nil in Hin. }
    simpl.
    rewrite (Honly "CONNECT" t1) by (done || (apply list_elem_of_In; simpl; tauto)).
    rewrite (Honly "DELETE" t2) by (done || (apply list_elem_of_In; simpl; tauto)).
    rewrite (Honly "GET" t3) by (done || (apply list_elem_of_In; simpl; tauto)).
    rewrite (Honly "PATCH" t4) by (done || (apply list_elem_of_In; simpl; tauto)).
    rewrite Hb. by rewrite matched_branch_head.
Qed.

(** * Registration *)

Lemma dict_get_set_is_Some {K V : Type} `{EqDecision K} (d : list (K * V)) (k k' : K) (v : V) :
  is_Some (dict_get d k') -> is_Some (dict_get (dict_set d k v) k').
Proof.
  intros H. destruct (decide (k = k')) as [->|Hne].
  - rewrite dict_get_set_eq. eauto.
  - by rewrite dict_get_set_ne.
Qed.

Lemma dict_set_keys {K V : Type} `{EqDecision K} (d : list (K * V)) (k : K) (v : V) :
  is_Some (dict_get d k) -> map fst (dict_set d k v) = map fst d.
Proof.
  induction d as [|[k1 v1] d IH]; simpl; intros H.
  - by destruct H.
  - destruct (decide (k1 = k)); simpl; [done|]. by rewrite IH.
Qed.

Lemma register_paths_lookup cls method sfx ps (t : table) out q :
  (register_paths cls method sfx ps t out).1 !! q
    = if decide (q ∈ ps) then Some (Some cls) else t !! q.
Proof.
  revert t out. induction ps as [|p ps IH]; intros t out; simpl.
  - done.
  - rewrite IH.
    destruct (decide (q ∈ ps)) as [H1|H1], (decide (q ∈ p :: ps)) as [H2|H2]; try done.
    + exfalso. apply H2. by right.
    + apply elem_of_cons in H2 as [->|?]; [|done]. apply lookup_insert_eq.
    + apply lookup_insert_ne. intros ->. apply H2. left.
Qed.

Lemma register_paths_out cls method sfx ps (t : table) out :
  exists extra, (register_paths cls method sfx ps t out).2 = (out ++ extra)%list.
Proof.
  revert t out. induction ps as [|p ps IH]; intros t out; simpl.
  - exists []. by rewrite app_nil_r.
  - destruct (t !! p).
    + destruct (IH (<[p:=Some cls]> t) (out ++ [warning_line method p sfx])%list)
        as [extra ->].
      eexists. by rewrite <- app_assoc.
    + apply IH.
Qed.

Lemma register_paths_keeps cls method sfx ps (t : table) out line :
  line ∈ out -> line ∈ (register_paths cls method sfx ps t out).2.
Proof.
  intros H. destruct (register_paths_out cls method sfx ps t out) as [extra ->].
  apply elem_of_app. by left.
Qed.

Lemma register_paths_warns cls method sfx ps (t : table) out p :
  p ∈ ps -> is_Some (t !! p) ->
  warning_line method p sfx ∈ (register_paths cls method sfx ps t out).2.
Proof.
  revert t out. induction ps as [|q ps IH]; intros t out Hin Hb.
  - by apply elem_of_nil in Hin.
  - simpl. destruct (decide (q = p)) as [->|Hne].
    + destruct Hb as [x Hx]. rewrite Hx.
      apply register_paths_keeps. apply elem_of_app. right. by left.
    + apply IH.
      * apply elem_of_cons in Hin as [?|?]; [congruence | done].
      * by rewrite lookup_insert_ne.
Qed.

Lemma register_method_spec cls method r :
  let r' := (register_method cls method r).1 in
  (method_supported cls (web_path_map r) method -> (register_method cls method r).2 = Ok tt) /\
  (forall m' p',
     lookup_binding (web_path_map r') m' p' =
       if decide (m' = method /\ p' ∈ cls_PATHS cls /\
                  is_Some (dict_get (PATHS (web_path_map r)) method))
       then Some (Some cls)
       else lookup_binding (web_path_map r) m' p') /\
  (forall k, is_Some (dict_get (PATHS (web_path_map r)) k) ->
             is_Some (dict_get (PATHS (web_path_map r')) k)) /\
  (forall k, is_Some (dict_get (REGEX_PATHS (web_path_map r)) k) ->
             is_Some (dict_get (REGEX_PATHS (web_path_map r')) k)) /\
  map fst (PATHS (web_path_map r')) = map fst (PATHS (web_path_map r)) /\
  (forall line, line ∈ stdout r -> line ∈ stdout r') /\
  (forall p, p ∈ cls_PATHS cls ->
     is_Some (lookup_binding (web_path_map r) method p) ->
     warning_line method p "" ∈ stdout r').
Proof.
  unfold register_method, method_supported.
  destruct (dict_get (PATHS (web_path_map r)) method) as [t|] eqn:Ht.
  2:{ simpl. repeat split; try done.
      - intros [[? ?] _]. done.
      - intros m' p'. rewrite decide_False; [done|]. intros (_ & _ & [? ?]); done.
      - intros p _. unfold lookup_binding. rewrite Ht. by intros [? ?]. }
  destruct (register_paths cls method "" (cls_PATHS cls) t (stdout r)) as [t' out1] eqn:E1.
  assert (forall q, t' !! q = if decide (q ∈ cls_PATHS cls) then Some (Some cls) else t !! q)
    as Hlook.
  { intros q. pose proof (register_paths_lookup cls method "" (cls_PATHS cls) t (stdout r) q) as H.
    by rewrite E1 in H. }
  assert (forall line, line ∈ stdout r -> line ∈ out1) as Hkeep1.
  { intros line H. pose proof (register_paths_keeps cls method "" (cls_PATHS cls) t _ line H) as H'.
    by rewrite E1 in H'. }
  assert (forall p, p ∈ cls_PATHS cls -> is_Some (t !! p) -> warning_line method p "" ∈ out1)
    as Hwarn1.
  { intros p Hp Hb.
    pose proof (register_paths_warns cls method "" (cls_PATHS cls) t (stdout r) p Hp Hb) as H'.
    by rewrite E1 in H'. }
  assert (forall m' p',
     lookup_binding
       {| PATHS := dict_set (PATHS (web_path_map r)) method t';
          REGEX_PATHS := REGEX_PATHS (web_path_map r) |} m' p' =
       if decide (m' = method /\ p' ∈ cls_PATHS cls /\ is_Some (Some t))
       then Some (Some cls)
       else lookup_binding (web_path_map r) m' p') as Hlb.
  { intros m' p'. unfold lookup_binding. simpl.
    destruct (decide (m' = method)) as [->|Hne].
    - rewrite dict_get_set_eq, Ht, Hlook.
      destruct (decide (p' ∈ cls_PATHS cls)).
      + rewrite decide_True; [done | eauto].
      + rewrite decide_False; [done | tauto].
    - rewrite dict_get_set_ne by done.
      rewrite decide_False; [done | tauto]. }
  assert (map fst (dict_set (PATHS (web_path_map r)) method t')
          = map fst (PATHS (web_path_map r))) as Hkeys.
  { apply dict_set_keys. rewrite Ht. eauto. }
  assert (forall p, is_Some (lookup_binding (web_path_map r) method p) -> is_Some (t !! p))
    as Hlb0.
  { intros p. unfold lookup_binding. by rewrite Ht. }
  destruct (cls_REGEX_PATHS cls) as [|rp rps] eqn:Erx.
  - simpl. repeat split; try done.
    + intros k Hk. by apply dict_get_set_is_Some.
    + intros p Hp Hb. apply Hwarn1; auto.
  - destruct (dict_get (REGEX_PATHS (web_path_map r)) method) as [rt|] eqn:Hrt.
    + destruct (register_paths cls method " (RegEx)" (rp :: rps) rt out1) as [rt' out2] eqn:E2.
      assert (forall line, line ∈ out1 -> line ∈ out2) as Hkeep2.
      { intros line H.
        pose proof (register_paths_keeps cls method " (RegEx)" (rp :: rps) rt _ line H) as H'.
        by rewrite E2 in H'. }
      simpl. repeat split; try done.
      * intros k Hk. by apply dict_get_set_is_Some.
      * intros k Hk. by apply dict_get_set_is_Some.
      * intros line H. auto.
      * intros p Hp Hb. apply Hkeep2, Hwarn1; auto.
    + simpl. repeat split; try done.
      * intros [_ H]. destruct H as [? ?]; done.
      * intros k Hk. by apply dict_get_set_is_Some.
      * intros p Hp Hb. apply Hwarn1; auto.
Qed.

Lemma method_supported_step cls method r m :
  method_supported cls (web_path_map r) m ->
  method_supported cls (web_path_map (register_method cls method r).1) m.
Proof.
  destruct (register_method_spec cls method r) as (_ & _ & Hk & Hrk & _).
  intros [H1 H2]. split; [by apply Hk|]. intros Hne. by apply Hrk, H2.
Qed.

Lemma register_methods_keeps_bindings cls ms r m p :
  is_Some (lookup_binding (web_path_map r) m p) ->
  is_Some (lookup_binding (web_path_map (register_methods cls ms r).1) m p).
Proof.
  revert r. induction ms as [|method ms IH]; intros r Hb; simpl; [done|].
  destruct (register_method_spec cls method r) as (_ & Hl & _).
  assert (is_Some (lookup_binding (web_path_map (register_method cls method r).1) m p)) as Hb1.
  { rewrite Hl. case_decide; eauto. }
  destruct (register_method cls method r) as [r1 [[]|e]]; simpl in *; [|done].
  by apply IH.
Qed.

Lemma register_methods_spec cls ms r :
  (forall m, m ∈ ms -> method_supported cls (web_path_map r) m) ->
  let r' := (register_methods cls ms r).1 in
  (register_methods cls ms r).2 = Ok tt /\
  (forall m' p',
     lookup_binding (web_path_map r') m' p' =
       if decide (m' ∈ ms /\ p' ∈ cls_PATHS cls) then Some (Some cls)
       else lookup_binding (web_path_map r) m' p') /\
  map fst (PATHS (web_path_map r')) = map fst (PATHS (web_path_map r)) /\
  (forall line, line ∈ stdout r -> line ∈ stdout r') /\
  (forall m p, m ∈ ms -> p ∈ cls_PATHS cls ->
     is_Some (lookup_binding (web_path_map r) m p) ->
     warning_line m p "" ∈ stdout r').
Proof.
  revert r. induction ms as [|method ms IH]; intros r Hsup; simpl.
  - repeat split; try done.
    intros m p H. by apply elem_of_nil in H.
  - destruct (register_method_spec cls method r) as (Hok & Hl & Hk & Hrk & Hord & Hout & Hwarn).
    assert (method_supported cls (web_path_map r) method) as Hs0 by (apply Hsup; left).
    specialize (Hok Hs0).
    assert (forall m, m ∈ ms ->
      method_supported cls (web_path_map (register_method cls method r).1) m) as Hsup1.
    { intros m Hm. apply method_supported_step, Hsup. by right. }
    destruct (register_method cls method r) as [r1 res1]; simpl in *. subst res1.
    destruct (IH r1 Hsup1) as (IHok & IHl & IHord & IHout & IHwarn).
    split; [done|]. split; [|split; [|split]].
    + intros m' p'. rewrite IHl, Hl.
      destruct Hs0 as [Hs0 _].
      destruct (decide (m' ∈ ms /\ p' ∈ cls_PATHS cls)) as [[Ha Hb]|Hn].
      * rewrite decide_True; [done|]. split; [by right | done].
      * destruct (decide (m' = method /\ p' ∈ cls_PATHS cls /\ _)) as [(-> & Hb & _)|Hn2].
        -- rewrite decide_True; [done|]. split; [left | done].
        -- rewrite decide_False; [done|]. intros [Ha Hb].
           apply elem_of_cons in Ha as [->|Ha]; [apply Hn2 | apply Hn]; done.
    + by rewrite IHord.
    + intros line H. by apply IHout, Hout.
    + intros m p Hm Hp Hb. apply elem_of_cons in Hm as [->|Hm].
      * apply IHout, Hwarn; done.
      * apply IHwarn; [done | done |]. rewrite Hl. case_decide; eauto.
Qed.


(** Registration never changes the order of the methods. *)
Lemma register_methods_order cls ms r :
  map fst (PATHS (web_path_map (register_methods cls ms r).1))
    = map fst (PATHS (web_path_map r)).
Proof.
  revert r. induction ms as [|method ms IH]; intros r; simpl; [done|].
  destruct (register_method_spec cls method r) as (_ & _ & _ & _ & Hord & _).
  destruct (register_method cls method r) as [r1 [[]|e]]; simpl in *; [|done].
  by rewrite IH.
Qed.

Lemma init_subclass_order cls r :
  map fst (PATHS (web_path_map (init_subclass cls r).1))
    = map fst (PATHS (web_path_map r)).
Proof.
  unfold init_subclass.
  destruct (length (cls_METHODS cls) =? 0)%nat; [done|].
  destruct (length (cls_PATHS cls) + length (cls_REGEX_PATHS cls) =? 0)%nat; [done|].
  apply register_methods_order.
Qed.

(** The tables of the examples keep the order of the class body. *)
Lemma registry_examples_order :
  map fst (PATHS (web_path_map registry_examples)) = METHOD_ORDER.
Proof. unfold registry_examples. by rewrite !init_subclass_order. Qed.


(** * Default headers *)

Lemma char_in_cons (c x : ascii) (s : string) :
  char_in c (String x s) = Ascii.eqb c x || char_in c s.
Proof.
  unfold char_in. cbn [str_in String.prefix].
  destruct (ascii_dec c x) as [->|Hne].
  - rewrite Ascii.eqb_refl. by destruct s.
  - apply Ascii.eqb_neq in Hne. by rewrite Hne.
Qed.

Lemma char_in_replace1 (c new : ascii) (s : string) :
  c <> new -> char_in c (str_replace1 c new s) = false.
Proof.
  intros Hne. induction s as [|x s IH]; [done|].
  cbn [str_replace1]. rewrite char_in_cons, IH, orb_false_r.
  destruct (Ascii.eqb x c) eqn:E.
  - by apply Ascii.eqb_neq.
  - rewrite Ascii.eqb_sym. exact E.
Qed.

Lemma char_in_replace1_other (c old new : ascii) (s : string) :
  c <> new -> char_in c s = false -> char_in c (str_replace1 old new s) = false.
Proof.
  intros Hne. induction s as [|x s IH]; [done|].
  cbn [str_replace1]. rewrite !char_in_cons.
  intros H. apply orb_false_iff in H as [H1 H2].
  rewrite IH by done. rewrite orb_false_r.
  destruct (Ascii.eqb x old); [by apply Ascii.eqb_neq | done].
Qed.

Lemma clean_value_ok (s : string) :
  char_in "013" (clean_value s) = false /\ char_in "010" (clean_value s) = false.
Proof.
  unfold clean_value. split.
  - by apply char_in_replace1.
  - apply char_in_replace1_other; [done|]. by apply char_in_replace1.
Qed.

Lemma dict_get_elem {K V : Type} `{EqDecision K} (d : list (K * V)) (k : K) (v : V) :
  NoDup (map fst d) -> (k, v) ∈ d -> dict_get d k = Some v.
Proof.
  induction d as [|[k1 v1] d IH]; simpl; intros Hnd Hin.
  - by apply elem_of_nil in Hin.
  - apply NoDup_cons in Hnd as [Hk Hnd].
    apply elem_of_cons in Hin as [Heq|Hin].
    + inversion Heq; subst. by rewrite decide_True.
    + rewrite decide_False; [by apply IH|].
      intros ->. apply Hk. apply list_elem_of_fmap. by exists (k, v).
Qed.

Lemma dict_get_is_Some {K V : Type} `{EqDecision K} (d : list (K * V)) (k : K) :
  k ∈ map fst d -> is_Some (dict_get d k).
Proof.
  induction d as [|[k1 v1] d IH]; simpl; intros Hin.
  - by apply elem_of_nil in Hin.
  - destruct (decide (k1 = k)); [eauto|].
    apply IH. apply elem_of_cons in Hin as [?|?]; [congruence | done].
Qed.

Lemma set_headers_loop_keys keys h h' :
  set_headers_loop keys h = Ok h' -> map fst h' = map fst h.
Proof.
  revert h. induction keys as [|k keys IH]; intros h H; cbn [set_headers_loop] in H.
  - by inversion H.
  - destruct k as [|name|z]; try done.
    destruct (has_bad_char name); [done|].
    destruct (dict_get h (PyStr name)) as [[|v|z]|] eqn:Hg; try done.
    rewrite (IH _ H). apply dict_set_keys. rewrite Hg. eauto.
Qed.

Lemma set_headers_loop_stays_clean keys h h' k :
  set_headers_loop keys h = Ok h' ->
  (exists s, dict_get h k = Some (PyStr (clean_value s))) ->
  exists s, dict_get h' k = Some (PyStr (clean_value s)).
Proof.
  revert h. induction keys as [|k0 keys IH]; intros h H Hk; cbn [set_headers_loop] in H.
  - by inversion H; subst.
  - destruct k0 as [|name|z]; try done.
    destruct (has_bad_char name); [done|].
    destruct (dict_get h (PyStr name)) as [[|v|z]|] eqn:Hg; try done.
    apply (IH _ H).
    destruct (decide (PyStr name = k)) as [<-|Hne].
    + rewrite dict_get_set_eq. by exists v.
    + by rewrite dict_get_set_ne.
Qed.

Lemma set_headers_loop_cleans keys h h' k :
  set_headers_loop keys h = Ok h' -> k ∈ keys ->
  exists s, dict_get h' k = Some (PyStr (clean_value s)).
Proof.
  revert h. induction keys as [|k0 keys IH]; intros h H Hin; cbn [set_headers_loop] in H.
  - by apply elem_of_nil in Hin.
  - destruct k0 as [|name|z]; try done.
    destruct (has_bad_char name); [done|].
    destruct (dict_get h (PyStr name)) as [[|v|z]|] eqn:Hg; try done.
    apply elem_of_cons in Hin as [->|Hin]; [|by apply (IH _ H)].
    apply (set_headers_loop_stays_clean _ _ _ _ H).
    rewrite dict_get_set_eq. by exists v.
Qed.

Lemma set_headers_loop_rejects keys h name c :
  (forall k, k ∈ keys -> is_Some (dict_get h k)) ->
  PyStr name ∈ keys -> c ∈ bad_chars -> char_in c name = true ->
  set_headers_loop keys h = Raise AssertionError.
Proof.
  revert h. induction keys as [|k0 keys IH]; intros h Hdom Hin Hc Hbad.
  - by apply elem_of_nil in Hin.
  - cbn [set_headers_loop]. destruct k0 as [|name0|z]; try done.
    destruct (has_bad_char name0) eqn:Ebad; [done|].
    assert (PyStr name ∈ keys) as Hin'.
    { apply elem_of_cons in Hin as [Heq|?]; [|done].
      inversion Heq; subst name0.
      assert (has_bad_char name = true) as E.
      { unfold has_bad_char. apply existsb_exists. exists c. split; [by apply list_elem_of_In | done]. }
      congruence. }
    destruct (Hdom (PyStr name0)) as [v Hv]; [left|]. rewrite Hv.
    destruct v as [|v|z]; try done.
    apply IH; try done.
    intros k Hk. apply dict_get_set_is_Some, Hdom. by right.
Qed.

Lemma str_items_elem d k v :
  (k, v) ∈ str_items d -> (PyStr k, PyStr v) ∈ d.
Proof.
  induction d as [|[k1 v1] d IH]; simpl; intros H.
  - by apply elem_of_nil in H.
  - destruct k1 as [|ks|z]; try (right; by apply IH).
    destruct v1 as [|vs|z]; try (right; by apply IH).
    apply elem_of_cons in H as [Heq|H]; [inversion Heq; left | right; by apply IH].
Qed.

Lemma set_headers_loop_str_keys keys h h' k :
  set_headers_loop keys h = Ok h' -> k ∈ keys -> exists name, k = PyStr name.
Proof.
  revert h. induction keys as [|k0 keys IH]; intros h H Hin; cbn [set_headers_loop] in H.
  - by apply elem_of_nil in Hin.
  - destruct k0 as [|name|z]; try done.
    destruct (has_bad_char name); [done|].
    destruct (dict_get h (PyStr name)) as [[|v|z]|] eqn:Hg; try done.
    apply elem_of_cons in Hin as [->|Hin]; [by exists name | by apply (IH _ H)].
Qed.

Lemma str_items_all (d : list (pyval * pyval)) :
  Forall (fun kv => exists ks vs, kv = (PyStr ks, PyStr vs)) d ->
  map (fun kv => (PyStr (fst kv), PyStr (snd kv))) (str_items d) = d.
Proof.
  induction 1 as [|kv d (ks & vs & ->) _ IH]; simpl; [done | by rewrite IH].
Qed.

(** After an accepted call the stored defaults are the whole mapping, with
    every value cleaned: no entry is dropped. *)
Lemma set_headers_stores_all (headers : list (pyval * pyval)) h' :
  NoDup (dict_keys headers) ->
  set_headers_loop (dict_keys headers) headers = Ok h' ->
  map (fun kv => (PyStr (fst kv), PyStr (snd kv))) (str_items h') = h'.
Proof.
  unfold dict_keys. intros Hnd E. apply str_items_all.
  pose proof (set_headers_loop_keys _ _ _ E) as Hkeys.
  apply Forall_forall. intros [k v] Hin.
  assert (k ∈ map fst headers) as Hk.
  { rewrite <- Hkeys. apply list_elem_of_fmap. by exists (k, v). }
  destruct (set_headers_loop_str_keys _ _ _ k E Hk) as [name ->].
  destruct (set_headers_loop_cleans _ _ _ (PyStr name) E Hk) as [s Hs].
  rewrite (dict_get_elem h' (PyStr name) v) in Hs; [|by rewrite Hkeys | done].
  inversion Hs; subst. eauto.
Qed.

(** C8: a mapping with a header name that contains a space, a colon, a
    carriage return, a line feed, a tab, a backspace or a NUL is refused
    with an assertion error and the stored defaults stay as they were;
    when a mapping is accepted, no stored value contains a carriage return
    or a line feed. *)
Theorem C8_set_headers_validates
    (stored : list (string * string)) (headers : list (pyval * pyval)) :
  (forall name v c,
     (PyStr name, v) ∈ headers ->
     c ∈ [" "; ":"; "013"; "010"; "009"; "008"; "000"]%char ->
     char_in c name = true ->
     set_headers stored headers = (stored, Raise AssertionError)) /\
  (NoDup (dict_keys headers) ->
   forall stored' r,
     set_headers stored headers = (stored', Ok r) ->
     r = stored' /\
     forall k v, (k, v) ∈ stored' ->
       char_in "013" v = false /\ char_in "010" v = false).
Proof.
  unfold set_headers, dict_keys. split.
  - intros name v c Hin Hc Hbad.
    rewrite (set_headers_loop_rejects _ headers name c); try done.
    + intros k Hk. by apply dict_get_is_Some.
    + apply list_elem_of_fmap. by exists (PyStr name, v).
  - intros Hnd stored' r H.
    destruct (set_headers_loop (map fst headers) headers) as [h'|e] eqn:E; [|done].
    inversion H; subst. split; [done|].
    intros k v Hkv. apply str_items_elem in Hkv.
    pose proof (set_headers_loop_keys _ _ _ E) as Hkeys.
    assert (dict_get h' (PyStr k) = Some (PyStr v)) as Hg.
    { apply dict_get_elem; [by rewrite Hkeys | done]. }
    destruct (set_headers_loop_cleans _ _ _ (PyStr k) E) as [s Hs].
    { rewrite <- Hkeys. apply list_elem_of_fmap. by exists (PyStr k, PyStr v). }
    rewrite Hs in Hg. inversion Hg; subst. apply clean_value_ok.
Qed.

(** * Query parameters *)

(** C4 (as the code has it): in case-sensitive mode a key that is present
    yields the whole list of its values, the first value being element 0
    of that list; an absent key yields a one-element list that holds the
    default value. *)
Theorem C4_query_param_returns_value_list
    (py : PyRuntime) (self : Request) (key : string) (default_val : pyval) :
  (forall v vs, dict_get (query self) key = Some (v :: vs) ->
     get_url_query_param py self key default_val true
       = ObjList (PyStr v :: map PyStr vs)) /\
  (dict_get (query self) key = None ->
     get_url_query_param py self key default_val true = ObjList [default_val]).
Proof.
  unfold get_url_query_param. split.
  - intros v vs H. by rewrite H.
  - intros H. by rewrite H.
Qed.

(** * Response serialisation *)








(** A status code without a reason phrase: the status line is prepared,
    then the method raises, and nothing else is called. *)
Lemma send_pending_response_unknown_status py banner cmd resp :
  has_reason_phrase (status_code resp) = false ->
  _send_pending_response py banner cmd resp
  = ([send_response (status_code resp)], Raise KeyError).
Proof. intros H. unfold _send_pending_response. by rewrite H. Qed.


(** * Body acquisition *)

(** ** What the header loops compute *)

Lemma headers_getitem_first py hs hdr :
  headers_getitem py hs hdr = first_value py hs (str_lower py hdr).
Proof. induction hs as [|[k v] hs IH]; simpl; [done|]. by rewrite IH. Qed.

Lemma first_value_names py hs lname :
  names_have py (dict_keys hs) lname = false -> first_value py hs lname = None.
Proof.
  unfold names_have, dict_keys. induction hs as [|[k v] hs IH]; simpl; [done|].
  intros H. apply orb_false_iff in H as [H1 H2].
  apply bool_decide_eq_false in H1. rewrite decide_False by done. by apply IH.
Qed.

Lemma fold_content_len py hs names st :
  content_len (fold_left (body_plan_step py hs) names st) =
    if names_have py names "content-length"
    then match declared_length py hs with Some n => n | None => content_len st end
    else content_len st.
Proof.
  revert st. induction names as [|hdr names IH]; intros st; [done|].
  cbn [fold_left names_have existsb]. rewrite IH. fold (names_have py names "content-length").
  unfold body_plan_step, header_int, declared_length.
  rewrite !headers_getitem_first.
  destruct (decide (str_lower py hdr = "content-length")) as [E|E].
  - rewrite E, bool_decide_eq_true_2 by done. simpl.
    destruct (first_value py hs "content-length") as [v|]; simpl.
    + destruct (int_of_str py v); simpl; by destruct (names_have py names _).
    + by destruct (names_have py names _).
  - rewrite bool_decide_eq_false_2 by done. simpl.
    destruct (decide (str_lower py hdr = "content-encoding")) as [E1|E1].
    + rewrite E1. destruct (first_value py hs "content-encoding") as [v|]; [|done].
      by destruct (names_scheme v).
    + destruct (decide (str_lower py hdr = "transfer-encoding")) as [E2|E2]; [|done].
      rewrite E2. destruct (first_value py hs "transfer-encoding") as [v|]; [|done].
      by destruct (str_in "chunked" v).
Qed.

Lemma fold_chunked py hs names st :
  chunked (fold_left (body_plan_step py hs) names st) =
    if names_have py names "transfer-encoding"
    then announces_chunked py hs || chunked st
    else chunked st.
Proof.
  revert st. induction names as [|hdr names IH]; intros st; [done|].
  cbn [fold_left names_have existsb]. rewrite IH. fold (names_have py names "transfer-encoding").
  unfold body_plan_step, header_int, announces_chunked.
  rewrite !headers_getitem_first.
  destruct (decide (str_lower py hdr = "transfer-encoding")) as [E|E].
  - rewrite E, bool_decide_eq_true_2 by done. simpl.
    destruct (first_value py hs "transfer-encoding") as [v|]; simpl.
    + destruct (str_in "chunked" v); simpl;
        destruct (names_have py names _); simpl; by rewrite ?orb_true_r.
    + by destruct (names_have py names _).
  - rewrite bool_decide_eq_false_2 by done. simpl.
    destruct (decide (str_lower py hdr = "content-length")) as [E1|E1].
    + rewrite E1. destruct (first_value py hs "content-length") as [v|]; [|done].
      by destruct (int_of_str py v).
    + destruct (decide (str_lower py hdr = "content-encoding")) as [E2|E2]; [|done].
      rewrite E2. destruct (first_value py hs "content-encoding") as [v|]; [|done].
      by destruct (names_scheme v).
Qed.

Lemma fold_compression py hs names st :
  compression (fold_left (body_plan_step py hs) names st) =
    if names_have py names "content-encoding"
    then match compression_of py hs with Some v => Some v | None => compression st end
    else compression st.
Proof.
  revert st. induction names as [|hdr names IH]; intros st; [done|].
  cbn [fold_left names_have existsb]. rewrite IH. fold (names_have py names "content-encoding").
  unfold body_plan_step, header_int, compression_of.
  rewrite !headers_getitem_first.
  destruct (decide (str_lower py hdr = "content-encoding")) as [E|E].
  - rewrite E, bool_decide_eq_true_2 by done. simpl.
    destruct (first_value py hs "content-encoding") as [v|]; simpl.
    + destruct (names_scheme v); simpl; by destruct (names_have py names _).
    + by destruct (names_have py names _).
  - rewrite bool_decide_eq_false_2 by done. simpl.
    destruct (decide (str_lower py hdr = "content-length")) as [E1|E1].
    + rewrite E1. destruct (first_value py hs "content-length") as [v|]; [|done].
      by destruct (int_of_str py v).
    + destruct (decide (str_lower py hdr = "transfer-encoding")) as [E2|E2]; [|done].
      rewrite E2. destruct (first_value py hs "transfer-encoding") as [v|]; [|done].
      by destruct (str_in "chunked" v).
Qed.

Lemma body_plan_content_len py hs :
  content_len (body_plan py hs)
    = match declared_length py hs with Some n => n | None => 0 end.
Proof.
  unfold body_plan. rewrite fold_content_len. simpl.
  destruct (names_have py (dict_keys hs) "content-length") eqn:E; [done|].
  unfold declared_length. by rewrite first_value_names.
Qed.

Lemma body_plan_chunked py hs :
  chunked (body_plan py hs) = announces_chunked py hs.
Proof.
  unfold body_plan. rewrite fold_chunked. simpl.
  destruct (names_have py (dict_keys hs) "transfer-encoding") eqn:E.
  - apply orb_false_r.
  - unfold announces_chunked. by rewrite first_value_names.
Qed.

Lemma body_plan_compression py hs :
  compression (body_plan py hs) = compression_of py hs.
Proof.
  unfold body_plan. rewrite fold_compression. simpl.
  destruct (names_have py (dict_keys hs) "content-encoding") eqn:E.
  - by destruct (compression_of py hs).
  - unfold compression_of. by rewrite first_value_names.
Qed.

Lemma decompress_body_spec py hs data :
  decompress_body py (body_plan py hs) data =
    if gzip_encoded py hs then gzip_decompress py data else Ok data.
Proof.
  unfold decompress_body, gzip_encoded. rewrite body_plan_compression.
  unfold compression_of.
  destruct (first_value py hs "content-encoding") as [v|]; [|done].
  destruct (str_in "gzip" v) eqn:Eg.
  - assert (names_scheme v = true) as ->.
    { unfold names_scheme, COMPRESSION_SCHEMES. cbn [existsb]. by rewrite Eg. }
    by rewrite Eg.
  - destruct (names_scheme v); [by rewrite Eg | done].
Qed.

(** ** Reading with a declared length *)

Local Open Scope list_scope.

Lemma read_some_spec (n : nat) (s : Stream) :
  (0 < n)%nat ->
  (read_some n s).1 ++ List.concat (read_some n s).2 = List.concat s /\
  ((read_some n s).1 = [] -> List.concat s = []).
Proof.
  intros Hn. induction s as [|seg s IH]; [done|].
  destruct seg as [|x seg]; [exact IH|].
  cbn [read_some fst snd]. split.
  - destruct (n <? length (x :: seg))%nat eqn:E.
    + cbn [List.concat]. by rewrite app_assoc, take_drop.
    + apply Nat.ltb_ge in E. rewrite take_ge by done. done.
  - destruct n; [lia | done].
Qed.

Lemma can_read_le (py : PyRuntime) (n m : Z) : m <= n -> can_read py n -> can_read py m.
Proof. unfold can_read. lia. Qed.

Lemma rfile_read_pos (py : PyRuntime) (n : Z) (s : Stream) :
  0 < n -> can_read py n -> rfile_read py n s = Ok (read_some (Z.to_nat n) s).
Proof.
  intros Hn [Hmax Hlim]. unfold rfile_read.
  assert ((n <? - 2 ^ 63) || (MAX_BYTES <=? n) = false) as ->.
  { apply orb_false_iff. split; [apply Z.ltb_ge | apply Z.leb_gt]; lia. }
  rewrite (proj2 (Z.leb_gt _ _) Hlim).
  destruct (n <? -1) eqn:E1; [apply Z.ltb_lt in E1; lia|].
  destruct (n =? -1) eqn:E2; [apply Z.eqb_eq in E2; lia|].
  destruct (n =? 0) eqn:E3; [apply Z.eqb_eq in E3; lia|]. done.
Qed.

Lemma rfile_read_zero (py : PyRuntime) (s : Stream) : rfile_read py 0 s = Ok ([], s).
Proof. reflexivity. Qed.



Lemma content_length_loop_spec py (fuel : nat) (cl : Z) (recv acc : bytes) (s : Stream) :
  can_read py cl ->
  cl = Z.of_nat (length recv + length (List.concat s)) ->
  (recv = [] -> List.concat s = []) ->
  (length recv + length (List.concat s) < fuel)%nat ->
  exists s', content_length_loop py fuel cl recv acc s
               = Some (Ok (acc ++ recv ++ List.concat s, s')) /\
             List.concat s' = [].
Proof.
  revert cl recv acc s.
  induction fuel as [|fuel IH]; intros cl recv acc s Hmax Hcl Hnil Hf; [lia|].
  cbn [content_length_loop]. destruct recv as [|x recv].
  - exists s. rewrite (Hnil eq_refl), !app_nil_r. auto.
  - set (cl' := cl - Z.of_nat (length (x :: recv))).
    assert (cl' = Z.of_nat (length (List.concat s))) as Hcl' by (unfold cl'; simpl in *; lia).
    destruct (decide (cl' = 0)) as [E0|E0].
    + assert (List.concat s = []) as Hs.
      { apply length_zero_iff_nil. lia. }
      rewrite E0, rfile_read_zero.
      destruct (IH 0 [] (acc ++ x :: recv) s) as (s' & -> & Hs'); try done.
      * apply (can_read_le py cl); [lia | done].
      * rewrite Hs. simpl. lia.
      * simpl in *. lia.
      * exists s'. split; [|done]. by rewrite Hs, !app_nil_r.
    + rewrite rfile_read_pos by (first [lia | apply (can_read_le py cl); [unfold cl'; lia | done]]).
      destruct (read_some_spec (Z.to_nat cl') s) as [Hsplit Hne]; [lia|].
      destruct (read_some (Z.to_nat cl') s) as [d s2]. cbn [fst snd] in *.
      destruct (IH cl' d (acc ++ x :: recv) s2) as (s' & -> & Hs').
      * apply (can_read_le py cl); [unfold cl'; lia | done].
      * rewrite Hcl', <- Hsplit, length_app. done.
      * intros ->. specialize (Hne eq_refl). rewrite Hne in Hcl'. simpl in Hcl'. lia.
      * rewrite <- length_app, Hsplit. simpl in Hf. lia.
      * exists s'. split; [|done]. by rewrite <- Hsplit, <- !app_assoc.
Qed.

Lemma acquire_body_declared py (fuel : nat) (plan : BodyPlan) (s : Stream) :
  0 < content_len plan ->
  can_read py (content_len plan) ->
  content_len plan = Z.of_nat (length (List.concat s)) ->
  (length (List.concat s) < fuel)%nat ->
  exists s', acquire_body py fuel plan s = Some (Ok (List.concat s, s')) /\
             List.concat s' = [].
Proof.
  intros Hpos Hmax Hlen Hf. unfold acquire_body.
  rewrite (proj2 (Z.ltb_lt _ _) Hpos), rfile_read_pos by done.
  destruct (read_some_spec (Z.to_nat (content_len plan)) s) as [Hsplit Hne]; [lia|].
  destruct (read_some (Z.to_nat (content_len plan)) s) as [d s1]. cbn [fst snd] in *.
  destruct (content_length_loop_spec py fuel (content_len plan) d [] s1) as (s' & -> & Hs').
  - done.
  - by rewrite Hlen, <- Hsplit, length_app.
  - intros ->. specialize (Hne eq_refl). rewrite Hne in Hlen. simpl in Hlen. lia.
  - by rewrite <- length_app, Hsplit.
  - exists s'. by rewrite Hsplit.
Qed.

(** C5 (as the code has it): for a POST or PUT request whose target
    [urlparse] accepts and whose first Content-Length field is the number
    N, a size that [read] serves, with a stream that supplies exactly N
    bytes in any number of segments, and, when N is 0,
    without "chunked" in the first Transfer-Encoding field: if the first
    Content-Encoding field does not contain "gzip" (or there is no such
    field) the request body is exactly those N bytes (the empty body for
    N = 0), and if it does the body is what [gzip.decompress] makes of
    those bytes, the request failing when that fails. *)
Theorem C5_content_length_body
    (py : PyRuntime) (raw : RawRequest) (parsed_path : string * string)
    (s : Stream) (N : Z) (fuel : nat)
    (Hcmd : raw_command raw = "POST" \/ raw_command raw = "PUT")
    (Htarget : urlparse py (raw_path raw) = Some parsed_path)
    (Hlen : declared_length py (raw_headers raw) = Some N)
    (Hdata : Z.of_nat (length (List.concat s)) = N)
    (Hsize : can_read py N)
    (Hchunked : N = 0 -> announces_chunked py (raw_headers raw) = false)
    (Hfuel : (length (List.concat s) < fuel)%nat) :
  exists s', List.concat s' = [] /\
    (gzip_encoded py (raw_headers raw) = false ->
       _init_response py fuel raw s
         = Some (Ok (make_request py raw parsed_path (List.concat s), s')) /\
       req_payload (make_request py raw parsed_path (List.concat s)) = List.concat s) /\
    (gzip_encoded py (raw_headers raw) = true ->
       _init_response py fuel raw s
         = match gzip_decompress py (List.concat s) with
           | Ok data => Some (Ok (make_request py raw parsed_path data, s'))
           | Raise e => Some (Raise e)
           end).
Proof.
  assert (bool_decide (raw_command raw = "POST") || bool_decide (raw_command raw = "PUT")
          = true) as Hc.
  { destruct Hcmd as [-> | ->]; done. }
  assert (exists s', acquire_body py fuel (body_plan py (raw_headers raw)) s
                       = Some (Ok (List.concat s, s')) /\ List.concat s' = [])
    as (s' & Hacq & Hs').
  { destruct (decide (N = 0)) as [E0|E0].
    - exists s. unfold acquire_body.
      rewrite body_plan_content_len, Hlen, body_plan_chunked, E0, (Hchunked E0).
      assert (List.concat s = []) as ->; [|done].
      apply length_zero_iff_nil. lia.
    - apply acquire_body_declared; rewrite ?body_plan_content_len, ?Hlen; first [done | lia]. }
  exists s'. split; [done|].
  unfold _init_response. rewrite Htarget, Hc. cbn [orb].
  rewrite Hacq, decompress_body_spec.
  split; intros ->; [done|].
  by destruct (gzip_decompress py (List.concat s)).
Qed.

(** ** Reading a chunked body *)

Lemma stream_drop_buffered (k : nat) (s : Stream) (w : bytes) :
  buffered s w -> buffered (stream_drop k s) (drop k w).
Proof.
  intros [-> | [-> ->]].
  - cbn [stream_drop]. destruct (k <? length w)%nat eqn:E.
    + by left.
    + apply Nat.ltb_ge in E. right. split; [done|]. by apply drop_ge.
  - right. by rewrite drop_nil.
Qed.

Lemma buffered_concat (s : Stream) (w : bytes) : buffered s w -> List.concat s = w.
Proof. intros [-> | [-> ->]]; simpl; [apply app_nil_r | done]. Qed.

Lemma rfile_readline_buffered (s : Stream) (w : bytes) :
  buffered s w ->
  (rfile_readline s).1 = take_line w /\
  buffered (rfile_readline s).2 (drop (length (take_line w)) w).
Proof.
  intros H. unfold rfile_readline. cbn [fst snd].
  rewrite (buffered_concat s w H). split; [done|]. by apply stream_drop_buffered.
Qed.

Lemma read_some_buffered (n : nat) (s : Stream) (w : bytes) :
  buffered s w ->
  (read_some n s).1 = take n w /\ buffered (read_some n s).2 (drop n w).
Proof.
  intros [-> | [-> ->]].
  - destruct w as [|x w].
    + simpl. rewrite take_nil, drop_nil. split; [done | by right].
    + cbn [read_some fst snd]. split; [done|].
      destruct (n <? length (x :: w))%nat eqn:E; [by left|].
      apply Nat.ltb_ge in E. right. split; [done|]. by apply drop_ge.
  - simpl. rewrite take_nil, drop_nil. split; [done | by right].
Qed.

Lemma rfile_read_buffered py (n : nat) (s : Stream) (w : bytes) :
  can_read py (Z.of_nat n) ->
  buffered s w ->
  exists s', rfile_read py (Z.of_nat n) s = Ok (take n w, s') /\ buffered s' (drop n w).
Proof.
  intros Hmax H. destruct n as [|n].
  - exists s. by rewrite take_0, drop_0.
  - rewrite rfile_read_pos by (first [lia | done]). rewrite Nat2Z.id.
    destruct (read_some_buffered (S n) s w H) as [H1 H2].
    exists (read_some (S n) s).2. split; [|done].
    rewrite <- H1. by destruct (read_some (S n) s).
Qed.

Lemma take_line_app (l rest : bytes) :
  x0a ∉ l -> take_line (l ++ x0a :: rest) = l ++ [x0a].
Proof.
  induction l as [|x l IH]; intros Hl; [done|].
  cbn [app take_line]. destruct (Byte.eqb x x0a) eqn:E.
  - apply Byte.byte_dec_bl in E. subst. exfalso. apply Hl. left.
  - rewrite IH; [done|]. intros H. apply Hl. by right.
Qed.

Lemma readline_size_line py (s : Stream) (line rest : bytes) (n : nat) :
  size_line_ok py line n -> buffered s (line ++ rest) ->
  (rfile_readline s).1 = line /\ buffered (rfile_readline s).2 rest.
Proof.
  intros [(l & -> & Hl) _] Hb.
  destruct (rfile_readline_buffered s _ Hb) as [H1 H2].
  rewrite <- app_assoc in H1, H2. cbn [app] in H1, H2.
  rewrite take_line_app in H1, H2 by done.
  split; [done|].
  replace (l ++ x0a :: rest) with ((l ++ [x0a]) ++ rest) in H2
    by (by rewrite <- app_assoc).
  by rewrite drop_app_length in H2.
Qed.

Lemma rfile_read_two py (s : Stream) (w : bytes) :
  can_read py 2 -> buffered s w ->
  exists s', rfile_read py 2 s = Ok (take 2 w, s') /\ buffered s' (drop 2 w).
Proof. intros Hr H. by apply (rfile_read_buffered py 2). Qed.

Lemma rfile_read_zero_buffered py (s : Stream) (w : bytes) :
  buffered s w ->
  exists s', rfile_read py 0 s = Ok (take 0 w, s') /\ buffered s' (drop 0 w).
Proof. intros H. exists s. by rewrite take_0, drop_0. Qed.

Lemma chunked_loop_spec py (cs : list Chunk) (last_line after : bytes) :
  can_read py 2 ->
  Forall (chunk_ok py) cs ->
  Forall (fun c => can_read py (Z.of_nat (length (payload c)))) cs ->
  size_line_ok py last_line 0 ->
  forall (fuel : nat) (acc : bytes) (s : Stream),
    buffered s (chunked_wire cs last_line after) ->
    (length cs < fuel)%nat ->
    exists s', chunked_loop py fuel acc s
                 = Some (Ok (acc ++ List.concat (map payload cs), s')).
Proof.
  intros Htwo Hcs Hsz Hlast. revert Hsz.
  induction Hcs as [|c cs Hc Hcs IH]; intros Hsz fuel acc s Hb Hf.
  - destruct fuel as [|fuel]; [simpl in Hf; lia|].
    unfold chunked_wire in Hb. cbn [map List.concat app] in Hb.
    destruct (readline_size_line py s last_line after 0 Hlast Hb) as [H1 H2].
    cbn [chunked_loop]. destruct (rfile_readline s) as [line s1]. cbn [fst snd] in *.
    subst line. rewrite (proj2 Hlast).
    destruct (rfile_read_zero_buffered py s1 after H2) as (s2 & Hr0 & H3).
    change (Z.of_nat 0) with 0. rewrite Hr0.
    destruct (rfile_read_two py s2 _ Htwo H3) as (s3 & -> & _).
    exists s3. simpl. by rewrite take_0.
  - destruct fuel as [|fuel]; [simpl in Hf; lia|].
    destruct Hc as (Hline & Hpay & Htail).
    unfold chunked_wire, chunk_wire in Hb. cbn [map List.concat] in Hb.
    rewrite <- !app_assoc in Hb.
    destruct (readline_size_line py s _ _ _ Hline Hb) as [H1 H2].
    cbn [chunked_loop]. destruct (rfile_readline s) as [line s1]. cbn [fst snd] in *.
    subst line. rewrite (proj2 Hline).
    apply Forall_cons in Hsz as [Hsz1 Hsz].
    destruct (rfile_read_buffered py (length (payload c)) s1 _ Hsz1 H2) as (s2 & -> & H3).
    rewrite take_app_length, drop_app_length in *.
    destruct (rfile_read_two py s2 _ Htwo H3) as (s3 & -> & H4).
    rewrite <- Htail, drop_app_length in H4.
    assert ((Z.of_nat (length (payload c)) =? 0) = false) as ->.
    { apply Z.eqb_neq. destruct (payload c); [done | simpl; lia]. }
    destruct (IH Hsz fuel (acc ++ payload c) s3 H4) as (s' & ->); [simpl in Hf; lia|].
    exists s'. cbn [map List.concat]. by rewrite app_assoc.
Qed.

(** C6 (as the code has it): for a POST or PUT request whose target
    [urlparse] accepts, whose first Content-Length field, if numeric, is
    not positive, and whose first Transfer-Encoding field contains
    "chunked", with a stream that delivers well-formed chunks (a
    hexadecimal size line, that many payload bytes, of a size that [read]
    serves, and two more bytes) up to a chunk of size zero: if the first
    Content-Encoding field does not contain "gzip" (or there is no such
    field) the request body is the concatenation of the payloads of the
    chunks before the last, and if it does the body is what
    [gzip.decompress] makes of it, the request failing when that fails. *)
Theorem C6_chunked_body
    (py : PyRuntime) (raw : RawRequest) (parsed_path : string * string)
    (cs : list Chunk) (last_line after : bytes) (fuel : nat)
    (Hcmd : raw_command raw = "POST" \/ raw_command raw = "PUT")
    (Htarget : urlparse py (raw_path raw) = Some parsed_path)
    (Hlen : forall n, declared_length py (raw_headers raw) = Some n -> n <= 0)
    (Hchunked : announces_chunked py (raw_headers raw) = true)
    (Hchunks : Forall (chunk_ok py) cs)
    (Htail : can_read py 2)
    (Hsizes : Forall (fun c => can_read py (Z.of_nat (length (payload c)))) cs)
    (Hlast : size_line_ok py last_line 0)
    (Hfuel : (length cs < fuel)%nat) :
  let body := List.concat (map payload cs) in
  exists s',
    (gzip_encoded py (raw_headers raw) = false ->
       _init_response py fuel raw [chunked_wire cs last_line after]
         = Some (Ok (make_request py raw parsed_path body, s')) /\
       req_payload (make_request py raw parsed_path body) = body) /\
    (gzip_encoded py (raw_headers raw) = true ->
       _init_response py fuel raw [chunked_wire cs last_line after]
         = match gzip_decompress py body with
           | Ok data => Some (Ok (make_request py raw parsed_path data, s'))
           | Raise e => Some (Raise e)
           end).
Proof.
  intros body.
  assert (bool_decide (raw_command raw = "POST") || bool_decide (raw_command raw = "PUT")
          = true) as Hc.
  { destruct Hcmd as [-> | ->]; done. }
  destruct (chunked_loop_spec py cs last_line after Htail Hchunks Hsizes Hlast fuel []
              [chunked_wire cs last_line after]) as (s' & Hloop); [by left | done |].
  exists s'.
  assert (acquire_body py fuel (body_plan py (raw_headers raw))
            [chunked_wire cs last_line after] = Some (Ok (body, s'))) as Hacq.
  { unfold acquire_body. rewrite body_plan_content_len, body_plan_chunked, Hchunked.
    assert ((0 <? match declared_length py (raw_headers raw) with
                  | Some n => n | None => 0 end) = false) as ->.
    { apply Z.ltb_ge. destruct (declared_length py (raw_headers raw)) as [n|].
      - by apply Hlen.
      - done. }
    exact Hloop. }
  unfold _init_response. rewrite Htarget, Hc. cbn [orb].
  rewrite Hacq, decompress_body_spec.
  split; intros ->; [done|].
  by destruct (gzip_decompress py body).
Qed.

Local Open Scope string_scope.

(** * The theorems at concrete requests *)

Ltac elem_cases H :=
  repeat (apply elem_of_cons in H as [H|H]);
  try (by apply elem_of_nil in H); simplify_eq.

Ltac by_computation := refine (bool_decide_unpack _ _); vm_compute; exact I.

(** A GET for a route bound under POST and PUT gets 405; a POST for it
    runs the handler bound under POST. *)
Lemma C1_witness :
  dispatch example_paths [] (request_of "GET" "/example2") = Ok (RESP_BAD_METHOD []) /\
  dispatch example_paths [] (request_of "POST" "/example2")
    = Ok {| status_code := 200;
            headers := [("Content-Type", "application/octet-stream")];
            body := [] |}.
Proof.
  split.
  - refine (proj1 (proj1 (C1_method_not_allowed_and_own_binding_first
      example_paths [] (request_of "GET" "/example2") _ _) _ _)).
    + split; discriminate.
    + by_computation.
    + exists "POST", (<["/submit" := Some SubmitEndpoint]>
               (<["/example02" := Some ExampleEndpoint02]>
                  (<["/example2" := Some ExampleEndpoint02]> default_table))).
      split; [apply list_elem_of_In; simpl; tauto | vm_compute; eauto].
    + intros t H. unfold example_paths in H. simpl in H. elem_cases H. reflexivity.
  - refine (proj1 (proj2 (C1_method_not_allowed_and_own_binding_first
      example_paths [] (request_of "POST" "/example2") _ _)) _ (Some ExampleEndpoint02) _ _).
    + split; discriminate.
    + by_computation.
    + apply list_elem_of_In; simpl; tauto.
    + reflexivity.
Defined.

(** A HEAD request for the route that only POST binds runs the POST
    handler. *)
Lemma C10_witness :
  dispatch example_paths [] (request_of "HEAD" "/submit")
    = Ok {| status_code := 201; headers := []; body := [] |}.
Proof.
  refine (proj2 (C10_head_options_take_first_table
    example_paths [] (request_of "HEAD" "/submit") _) _ SubmitEndpoint _ _ _ _).
  - reflexivity.
  - reflexivity.
  - intros m' t' H Hne. unfold example_paths in H. simpl in H. elem_cases H; reflexivity.
  - apply list_elem_of_In; simpl; tauto.
  - reflexivity.
Defined.


(** A name with a space is refused and the stored defaults stay; an
    accepted mapping is stored with clean values. *)
Lemma C8_witness :
  set_headers [("Connection", "close")] [(PyStr "X Bad", PyStr "v")]
    = ([("Connection", "close")], Raise AssertionError) /\
  (forall k v, (k, v) ∈ (set_headers [] [(PyStr "X-A", PyStr two_lines)]).1 ->
     char_in "013" v = false /\ char_in "010" v = false).
Proof.
  split.
  - refine (proj1 (C8_set_headers_validates _ _) "X Bad" (PyStr "v") " "%char _ _ _).
    + left.
    + left.
    + reflexivity.
  - refine (proj2 (proj2 (C8_set_headers_validates [] [(PyStr "X-A", PyStr two_lines)]) _
                     [("X-A", "line1 line2")] [("X-A", "line1 line2")] _)).
    + by_computation.
    + reflexivity.
Defined.

Lemma C4_witness :
  get_url_query_param example_runtime query_request "a" (PyStr "d") true
    = ObjList [PyStr "1"; PyStr "2"] /\
  get_url_query_param example_runtime query_request "b" (PyStr "d") true
    = ObjList [PyStr "d"].
Proof.
  split.
  - refine (proj1 (C4_query_param_returns_value_list
              example_runtime query_request "a" (PyStr "d")) "1" ["2"] _).
    reflexivity.
  - refine (proj2 (C4_query_param_returns_value_list
              example_runtime query_request "b" (PyStr "d")) _).
    reflexivity.
Defined.

(** C4 (counterexample): for the query [a=1&a=2] the lookup of [a] is the
    list of both values, not the string "1", and the lookup of the absent
    key [b] is a list holding the default, not the default itself. *)
Lemma C4_counterexample :
  get_url_query_param example_runtime query_request "a" (PyStr "d") true
    <> ObjVal (PyStr "1") /\
  get_url_query_param example_runtime query_request "b" (PyStr "d") true
    <> ObjVal (PyStr "d").
Proof. split; vm_compute; discriminate. Qed.



(** Five bytes delivered in two segments. *)
Lemma C5_witness :
  exists s',
    _init_response example_runtime 6 (post_with [("Content-Length", "5")])
      [bytes_of "he"; bytes_of "llo"]
    = Some (Ok (make_request example_runtime (post_with [("Content-Length", "5")])
                  ("/example2", "") (bytes_of "hello"), s')).
Proof.
  destruct (C5_content_length_body example_runtime (post_with [("Content-Length", "5")])
              ("/example2", "") [bytes_of "he"; bytes_of "llo"] 5 6) as (s' & _ & H & _).
  - by left.
  - reflexivity.
  - reflexivity.
  - reflexivity.
  - split; reflexivity.
  - discriminate.
  - vm_compute. lia.
  - exists s'. apply H. reflexivity.
Defined.

(** C5 (counterexample): a POST with Content-Length 0 and a chunked
    Transfer-Encoding whose stream holds no byte raises instead of
    yielding the empty body; a POST with Content-Length 3 and
    Content-Encoding gzip whose stream holds "abc" does not yield "abc";
    a POST whose target has an unmatched bracket in its host part fails
    before its three bytes are read; and after a first Content-Length
    field that is not a number a second one with the value 3 is not used,
    so the three bytes are not read. *)
Lemma C5_counterexample :
  _init_response example_runtime 6
    (post_with [("Content-Length", "0"); ("Transfer-Encoding", "chunked")]) []
    = Some (Raise ValueError) /\
  _init_response example_runtime 6
    (post_with [("Content-Length", "3"); ("Content-Encoding", "gzip")]) [bytes_of "abc"]
    = Some (Raise BadGzipFile) /\
  _init_response example_runtime 6
    (raw_request_of "POST" "http://[x/" [("Content-Length", "3")]) [bytes_of "abc"]
    = Some (Raise ValueError) /\
  _init_response example_runtime 6
    (post_with [("Content-Length", "abc"); ("Content-Length", "3")]) [bytes_of "abc"]
    = Some (Ok (make_request example_runtime
                  (post_with [("Content-Length", "abc"); ("Content-Length", "3")])
                  ("/example2", "") [],
                [bytes_of "abc"])).
Proof. repeat split; vm_compute; reflexivity. Qed.

(** A body sent as the chunks of sizes 5 and 0. *)
Lemma C6_witness :
  exists s',
    _init_response example_runtime 6 (post_with [("Transfer-Encoding", "chunked")])
      [chunked_wire [hello_chunk] zero_line CRLF]
    = Some (Ok (make_request example_runtime (post_with [("Transfer-Encoding", "chunked")])
                  ("/example2", "") (bytes_of "hello"), s')).
Proof.
  destruct (C6_chunked_body example_runtime (post_with [("Transfer-Encoding", "chunked")])
              ("/example2", "") [hello_chunk] zero_line CRLF 6) as (s' & H & _).
  - by left.
  - reflexivity.
  - intros n Hn. discriminate Hn.
  - reflexivity.
  - constructor; [|constructor]. split; [|split].
    + split; [|reflexivity]. exists [x35; x0d]. split; [reflexivity|].
      intros Hin. elem_cases Hin.
    + discriminate.
    + reflexivity.
  - split; reflexivity.
  - constructor; [split; reflexivity | constructor].
  - split; [|reflexivity]. exists [x30; x0d]. split; [reflexivity|].
    intros Hin. elem_cases Hin.
  - vm_compute. lia.
  - exists s'. apply H. reflexivity.
Defined.

(** C6 (counterexample): the same chunked body with Content-Encoding gzip
    does not yield the concatenation of the chunk payloads; after a first
    Transfer-Encoding field without "chunked" a second one that contains
    it is not used, so the body stays empty and the chunks unread; and a
    request whose target has an unmatched bracket in its host part fails
    before anything is read. *)
Lemma C6_counterexample :
  _init_response example_runtime 6
    (post_with [("Transfer-Encoding", "chunked"); ("Content-Encoding", "gzip")])
    [chunked_wire [hello_chunk] zero_line CRLF]
    = Some (Raise BadGzipFile) /\
  _init_response example_runtime 6
    (post_with [("Transfer-Encoding", "gzip"); ("Transfer-Encoding", "chunked")])
    [chunked_wire [hello_chunk] zero_line CRLF]
    = Some (Ok (make_request example_runtime
                  (post_with [("Transfer-Encoding", "gzip");
                              ("Transfer-Encoding", "chunked")])
                  ("/example2", "") [],
                [chunked_wire [hello_chunk] zero_line CRLF])) /\
  _init_response example_runtime 6
    (raw_request_of "POST" "http://[x/" [("Transfer-Encoding", "chunked")])
    [chunked_wire [hello_chunk] zero_line CRLF]
    = Some (Raise ValueError).
Proof. repeat split; vm_compute; reflexivity. Qed.

(** * Further properties of the dispatcher *)

Lemma scan_unknown all dh self ms pending :
  (forall m t, (m, t) ∈ ms -> t !! primary_path self = None) ->
  scan all dh self ms pending = Ok pending.
Proof.
  induction ms as [|[m t] ms IH]; intros H; simpl; [done|].
  rewrite (H m t) by left. apply IH. intros m' t' Hin. apply (H m' t'). by right.
Qed.

(** X1: a request for a path that no table holds gets 404 with the
    default headers and an empty body, whatever its method. *)
Theorem X1_unknown_path_not_found
    (all : method_map) (dh : list (string * string)) (self : Request)
    (Hunknown : forall m t, (m, t) ∈ all -> t !! primary_path self = None) :
  dispatch all dh self = Ok {| status_code := 404; headers := dh; body := [] |}.
Proof. unfold dispatch. by rewrite scan_unknown. Qed.

Lemma own_binding_elem ms c p b :
  own_binding ms c p = Some b -> exists t, (c, t) ∈ ms /\ t !! p = Some b.
Proof.
  induction ms as [|[m t] ms IH]; simpl; intros E; [done|].
  destruct (t !! p) as [b'|] eqn:Hb.
  - case_bool_decide as Hm.
    + inversion E; subst. exists t. split; [left | done].
    + destruct (IH E) as (t' & ? & ?). exists t'. split; [by right | done].
  - destruct (IH E) as (t' & ? & ?). exists t'. split; [by right | done].
Qed.

(** X2: for a request that is neither HEAD nor OPTIONS the dispatcher
    itself never fails: an exception means that a handler class bound to
    the path under the request's own method was run and either raised it
    or returned no response (the assertion). *)
Theorem X2_plain_request_fails_only_in_handler
    (all : method_map) (dh : list (string * string)) (self : Request) (e : exn)
    (Hplain : command self <> "HEAD" /\ command self <> "OPTIONS")
    (Hraise : dispatch all dh self = Raise e) :
  exists t cls,
    (command self, t) ∈ all /\ t !! primary_path self = Some (Some cls) /\
    (handle cls self (RESP_OK dh) = Raised e \/
     (handle cls self (RESP_OK dh) = Returned None /\ e = AssertionError)).
Proof.
  destruct Hplain as [H1 H2].
  rewrite dispatch_plain in Hraise
    by (unfold is_head_or_options; by rewrite !bool_decide_eq_false_2).
  destruct (own_binding all _ _) as [b|] eqn:E; [|done].
  apply own_binding_elem in E as (t & Hin & Hb).
  destruct b as [cls|]; [|done]. exists t, cls. split; [done|]. split; [done|].
  simpl in Hraise. destruct (handle cls self (RESP_OK dh)) as [[r|]|e'].
  - done.
  - inversion Hraise. by right.
  - inversion Hraise. by left.
Qed.

Lemma allowed_methods_filter (ms : method_map) (p : string) :
  allowed_methods ms p = map fst (filter (fun mt => is_Some (snd mt !! p)) ms).
Proof.
  induction ms as [|[m t] ms IH]; [done|].
  cbn [allowed_methods]. rewrite filter_cons. cbn [snd].
  destruct (t !! p) as [b|] eqn:E.
  - rewrite decide_True by eauto. cbn [map fst]. by rewrite IH.
  - rewrite decide_False by (by intros [? ?]). done.
Qed.

(** X3: an OPTIONS request whose first table in scan order binds the path
    to a handler class that does not disable OPTIONS gets 204 with an
    empty body (the handler is not run); its Allow header is the methods
    whose table holds the path, each once, in scan order (the tables that
    hold the path, filtered out of the method map in its order), joined
    by a comma and a space; every other header is the default one. *)
Theorem X3_options_allow_header
    (all : method_map) (dh : list (string * string)) (self : Request)
    (m : string) (cls : HandlerClass)
    (Hcmd : command self = "OPTIONS")
    (Hkeys : NoDup (map fst all))
    (Hfirst : first_binding all (primary_path self) = Some (m, Some cls))
    (Henabled : DISABLE_OPTIONS_REQUESTS cls = false) :
  exists r methods,
    dispatch all dh self = Ok r /\
    status_code r = 204 /\ body r = [] /\
    dict_get (headers r) "Allow" = Some (String.concat ", " methods) /\
    methods = map fst (filter (fun mt => is_Some (snd mt !! primary_path self)) all) /\
    NoDup methods /\
    (forall m', m' ∈ methods <->
                exists t, (m', t) ∈ all /\ is_Some (t !! primary_path self)) /\
    (forall k, k <> "Allow" -> dict_get (headers r) k = dict_get dh k).
Proof.
  exists (options_response all dh (primary_path self)),
         (allowed_methods all (primary_path self)).
  rewrite dispatch_head_options by (unfold is_head_or_options; by rewrite Hcmd).
  rewrite Hfirst, matched_branch_options, Henabled by done.
  split; [done|]. split; [done|]. split; [done|]. split; [|split; [|split; [|split]]].
  - simpl. by rewrite dict_get_set_eq, allow_header_spec.
  - apply allowed_methods_filter.
  - by apply allowed_methods_NoDup.
  - apply allowed_methods_elem.
  - intros k Hk. simpl. by rewrite !dict_get_set_ne.
Qed.

Lemma header_calls_are_headers py banner hs :
  Forall is_header_call
    (flat_map (fun kv => send_header py banner (fst kv) (snd kv)) hs).
Proof.
  induction hs as [|[k v] hs IH]; simpl; [constructor|].
  apply Forall_app. split; [|done].
  unfold send_header. destruct (_ && _); repeat constructor.
  by exists k, v.
Qed.

Lemma init_response_command py fuel raw s self s' :
  _init_response py fuel raw s = Some (Ok (self, s')) ->
  command self = raw_command raw.
Proof.
  unfold _init_response. intros H.
  destruct (urlparse py (raw_path raw)) as [parsed_path|]; [|done].
  destruct (_ || _).
  - destruct (acquire_body _ _ _ _) as [[[payload s1]|e]|]; try done.
    destruct (decompress_body _ _ _); [|done]. by inversion H.
  - by inversion H.
Qed.

(** X4: whenever a request is answered, the calls are one status line,
    then header fields only, then the end of the headers, then at most one
    write of a non-empty body; for a HEAD or OPTIONS request nothing is
    written after the headers, whatever the handler put in the body. *)
Theorem X4_answer_shape
    (py : PyRuntime) (fuel : nat) (srv : Server) (raw : RawRequest) (s : Stream)
    (calls : list wire_call)
    (Hanswered : _build_and_send_response py fuel srv raw s = Some (calls, Ok tt)) :
  exists code fields after,
    calls = (send_response code :: fields ++ end_headers :: after)%list /\
    Forall is_header_call fields /\
    (after = [] \/
     exists data, after = [wfile_write data] /\ data <> [] /\
                  raw_command raw <> "HEAD" /\ raw_command raw <> "OPTIONS") /\
    (is_head_or_options (raw_command raw) = true -> after = []).
Proof.
  unfold _build_and_send_response in Hanswered.
  destruct (_init_response py fuel raw s) as [[[self s']|e]|] eqn:Einit; try done.
  apply init_response_command in Einit.
  destruct (dispatch _ _ self) as [resp|e]; [|done].
  unfold _send_pending_response in Hanswered.
  destruct (has_reason_phrase (status_code resp)); [|done].
  inversion Hanswered; subst calls. clear Hanswered.
  rewrite Einit.
  eexists _, _, _. split; [reflexivity|]. split; [apply header_calls_are_headers|].
  destruct (is_head_or_options (raw_command raw)) eqn:Ec; simpl.
  - split; [by left | done].
  - split; [|done]. destruct (body resp) as [|x l] eqn:Eb; simpl; [by left|].
    right. exists (x :: l). apply is_head_or_options_false in Ec. by destruct Ec.
Qed.

Lemma dict_get_Some_elem {K V : Type} `{EqDecision K} (d : list (K * V)) (k : K) (v : V) :
  dict_get d k = Some v -> (k, v) ∈ d.
Proof.
  induction d as [|[k1 v1] d IH]; simpl; [done|].
  destruct (decide (k1 = k)) as [->|Hne]; intros H.
  - inversion H. left.
  - right. by apply IH.
Qed.

(** X5: a class that passes the checks of registration is routed to: after
    it is registered, a request (neither HEAD nor OPTIONS) with one of its
    methods and one of its paths gets what the class's handler returns,
    also when the pair was bound to something else before. *)
Theorem X5_registered_class_is_routed
    (cls : HandlerClass) (r : Registry) (dh : list (string * string)) (self : Request)
    (Hkeys : NoDup (map fst (PATHS (web_path_map r))))
    (Hvalid : registrable cls (web_path_map r))
    (Hm : command self ∈ cls_METHODS cls)
    (Hp : primary_path self ∈ cls_PATHS cls)
    (Hplain : command self <> "HEAD" /\ command self <> "OPTIONS") :
  (init_subclass cls r).2 = Ok tt /\
  dispatch (PATHS (web_path_map (init_subclass cls r).1)) dh self =
    match handle cls self (RESP_OK dh) with
    | Returned (Some resp) => Ok resp
    | Returned None => Raise AssertionError
    | Raised e => Raise e
    end.
Proof.
  destruct Hvalid as (Hne & Hpaths & Hsup). destruct Hplain as [H1 H2].
  unfold init_subclass.
  destruct (cls_METHODS cls) as [|m0 ms] eqn:Ems; [done|].
  assert ((length (cls_PATHS cls) + length (cls_REGEX_PATHS cls) =? 0)%nat = false) as ->.
  { apply Nat.eqb_neq. destruct Hpaths as [H|H];
      [destruct (cls_PATHS cls) | destruct (cls_REGEX_PATHS cls)]; simpl; try done; lia. }
  cbn [length Nat.eqb]. rewrite <- Ems in *.
  destruct (register_methods_spec cls (cls_METHODS cls) r Hsup)
    as (Hok & Hl & Hord & _ & _).
  split; [done|].
  rewrite dispatch_plain by (unfold is_head_or_options; by rewrite !bool_decide_eq_false_2).
  specialize (Hl (command self) (primary_path self)).
  rewrite decide_True in Hl by done. unfold lookup_binding in Hl.
  destruct (dict_get _ (command self)) as [t|] eqn:Ht; [|done].
  apply dict_get_Some_elem in Ht.
  rewrite (own_binding_Some _ _ _ t (Some cls)); [done | by rewrite Hord | done | done].
Qed.

(** * Further properties of registration *)

Lemma dict_get_is_Some_iff {K V : Type} `{EqDecision K} (d : list (K * V)) (k : K) :
  is_Some (dict_get d k) <-> k ∈ map fst d.
Proof.
  split; [|apply dict_get_is_Some].
  induction d as [|[k1 v1] d IH]; simpl; intros H.
  - by destruct H.
  - destruct (decide (k1 = k)) as [->|Hne]; [left | right; by apply IH].
Qed.

Lemma register_method_regex cls method r :
  let r' := (register_method cls method r).1 in
  map fst (REGEX_PATHS (web_path_map r')) = map fst (REGEX_PATHS (web_path_map r)) /\
  (forall m' p, m' <> method ->
     lookup_regex_binding (web_path_map r') m' p
       = lookup_regex_binding (web_path_map r) m' p).
Proof.
  unfold register_method.
  destruct (dict_get (PATHS (web_path_map r)) method) as [t|]; [|done].
  destruct (register_paths cls method "" (cls_PATHS cls) t (stdout r)) as [t' out1].
  destruct (cls_REGEX_PATHS cls) as [|rp rps]; [done|].
  destruct (dict_get (REGEX_PATHS (web_path_map r)) method) as [rt|] eqn:Hrt; [|done].
  destruct (register_paths cls method " (RegEx)" (rp :: rps) rt out1) as [rt' out2].
  simpl. split.
  - apply dict_set_keys. rewrite Hrt. eauto.
  - intros m' p Hne. unfold lookup_regex_binding. simpl.
    by rewrite dict_get_set_ne.
Qed.

Lemma method_supported_keys cls w w' m :
  map fst (PATHS w') = map fst (PATHS w) ->
  map fst (REGEX_PATHS w') = map fst (REGEX_PATHS w) ->
  method_supported cls w' m -> method_supported cls w m.
Proof.
  intros H1 H2 [Ha Hb]. split.
  - apply dict_get_is_Some_iff. rewrite <- H1. by apply dict_get_is_Some_iff.
  - intros Hne. apply dict_get_is_Some_iff. rewrite <- H2.
    by apply dict_get_is_Some_iff, Hb.
Qed.

Lemma register_method_ok_supported cls method r :
  (register_method cls method r).2 = Ok tt ->
  method_supported cls (web_path_map r) method.
Proof.
  unfold register_method, method_supported.
  destruct (dict_get (PATHS (web_path_map r)) method) as [t|]; [|done].
  destruct (register_paths cls method "" (cls_PATHS cls) t (stdout r)) as [t' out1].
  destruct (cls_REGEX_PATHS cls) as [|rp rps]; [by eauto|].
  destruct (dict_get (REGEX_PATHS (web_path_map r)) method) as [rt|]; [|done].
  eauto.
Qed.

Lemma register_methods_ok_supported cls ms r :
  (register_methods cls ms r).2 = Ok tt ->
  forall m, m ∈ ms -> method_supported cls (web_path_map r) m.
Proof.
  revert r. induction ms as [|method ms IH]; intros r Hok m Hm.
  - by apply elem_of_nil in Hm.
  - simpl in Hok.
    pose proof (register_method_ok_supported cls method r) as H0.
    destruct (register_method_spec cls method r) as (_ & _ & _ & _ & Hord & _).
    destruct (register_method_regex cls method r) as [Hrord _].
    destruct (register_method cls method r) as [r1 [[]|e]]; simpl in *; [|done].
    apply elem_of_cons in Hm as [->|Hm]; [by apply H0|].
    eapply method_supported_keys; [exact Hord | exact Hrord | by apply (IH r1)].
Qed.

Lemma registrable_ok cls r :
  registrable cls (web_path_map r) -> (init_subclass cls r).2 = Ok tt.
Proof.
  intros (Hne & Hp & Hsup). unfold init_subclass.
  destruct (cls_METHODS cls) as [|m0 ms] eqn:Ems; [done|].
  assert ((length (cls_PATHS cls) + length (cls_REGEX_PATHS cls) =? 0)%nat = false) as ->.
  { apply Nat.eqb_neq. destruct Hp as [H|H];
      [destruct (cls_PATHS cls) | destruct (cls_REGEX_PATHS cls)]; simpl; try done; lia. }
  cbn [length Nat.eqb].
  by destruct (register_methods_spec cls (m0 :: ms) r Hsup) as [Hok _].
Qed.

(** X6: registration returns normally exactly for a class with at least
    one method, at least one path or pattern, and only methods that the
    tables know; whenever it raises, every pair that was bound is still
    bound. *)
Theorem X6_registration_checks (cls : HandlerClass) (r : Registry) :
  ((init_subclass cls r).2 = Ok tt <-> registrable cls (web_path_map r)) /\
  (forall m p, is_Some (lookup_binding (web_path_map r) m p) ->
               is_Some (lookup_binding (web_path_map (init_subclass cls r).1) m p)).
Proof.
  unfold init_subclass, registrable. split.
  - destruct (cls_METHODS cls) as [|m0 ms] eqn:Ems.
    { simpl. split; [done | by intros [? _]]. }
    cbn [length Nat.eqb].
    destruct (length (cls_PATHS cls) + length (cls_REGEX_PATHS cls) =? 0)%nat eqn:Elen.
    { apply Nat.eqb_eq in Elen. split; [done|]. intros (_ & Hp & _).
      destruct Hp as [Hp|Hp];
        [destruct (cls_PATHS cls) | destruct (cls_REGEX_PATHS cls)]; simpl in *; try done; lia. }
    apply Nat.eqb_neq in Elen. split.
    + intros Hok. split; [done|]. split.
      * destruct (cls_PATHS cls); [|by left].
        destruct (cls_REGEX_PATHS cls); [simpl in Elen; lia | by right].
      * by apply register_methods_ok_supported.
    + intros (_ & _ & Hsup).
      by destruct (register_methods_spec cls (m0 :: ms) r Hsup) as [Hok _].
  - intros m p Hb.
    destruct (length (cls_METHODS cls) =? 0)%nat; [done|].
    destruct (length (cls_PATHS cls) + length (cls_REGEX_PATHS cls) =? 0)%nat; [done|].
    by apply register_methods_keeps_bindings.
Qed.

Lemma register_paths_fresh cls method sfx ps (t : table) out :
  NoDup ps -> (forall p, p ∈ ps -> t !! p = None) ->
  (register_paths cls method sfx ps t out).2 = out.
Proof.
  revert t. induction ps as [|p ps IH]; intros t Hnd Hfresh; [done|].
  apply NoDup_cons in Hnd as [Hp Hnd]. simpl.
  rewrite (Hfresh p) by left. apply IH; [done|].
  intros q Hq. rewrite lookup_insert_ne; [apply Hfresh; by right|].
  intros ->. done.
Qed.

Lemma register_method_fresh cls method r :
  NoDup (cls_PATHS cls) -> NoDup (cls_REGEX_PATHS cls) ->
  (forall p, p ∈ cls_PATHS cls -> lookup_binding (web_path_map r) method p = None) ->
  (forall p, p ∈ cls_REGEX_PATHS cls ->
             lookup_regex_binding (web_path_map r) method p = None) ->
  stdout (register_method cls method r).1 = stdout r.
Proof.
  intros Hnd Hrnd Hfresh Hrfresh. unfold register_method.
  unfold lookup_binding in Hfresh. unfold lookup_regex_binding in Hrfresh.
  destruct (dict_get (PATHS (web_path_map r)) method) as [t|]; [|done].
  pose proof (register_paths_fresh cls method "" (cls_PATHS cls) t (stdout r) Hnd Hfresh) as E1.
  destruct (register_paths cls method "" (cls_PATHS cls) t (stdout r)) as [t' out1].
  simpl in E1. subst out1.
  destruct (cls_REGEX_PATHS cls) as [|rp rps] eqn:Erx; [done|].
  destruct (dict_get (REGEX_PATHS (web_path_map r)) method) as [rt|]; [|done].
  pose proof (register_paths_fresh cls method " (RegEx)" (rp :: rps) rt (stdout r)
                Hrnd Hrfresh) as E2.
  destruct (register_paths cls method " (RegEx)" (rp :: rps) rt (stdout r)) as [rt' out2].
  done.
Qed.

Lemma register_methods_fresh cls ms r :
  NoDup ms -> NoDup (cls_PATHS cls) -> NoDup (cls_REGEX_PATHS cls) ->
  (forall m p, m ∈ ms -> p ∈ cls_PATHS cls ->
               lookup_binding (web_path_map r) m p = None) ->
  (forall m p, m ∈ ms -> p ∈ cls_REGEX_PATHS cls ->
               lookup_regex_binding (web_path_map r) m p = None) ->
  stdout (register_methods cls ms r).1 = stdout r.
Proof.
  intros Hms Hnd Hrnd. revert r.
  induction ms as [|method ms IH]; intros r Hfresh Hrfresh; [done|].
  apply NoDup_cons in Hms as [Hm Hms]. simpl.
  pose proof (register_method_fresh cls method r Hnd Hrnd) as H0.
  destruct (register_method_spec cls method r) as (_ & Hl & _).
  destruct (register_method_regex cls method r) as [_ Hrl].
  destruct (register_method cls method r) as [r1 [[]|e]]; simpl in *.
  - rewrite (IH Hms r1).
    + apply H0; intros p Hp; [apply Hfresh | apply Hrfresh]; (left || done).
    + intros m p Hin Hp. rewrite Hl. rewrite decide_False.
      * apply Hfresh; [by right | done].
      * intros (-> & _). done.
    + intros m p Hin Hp. rewrite Hrl by (intros ->; done).
      apply Hrfresh; [by right | done].
  - apply H0; intros p Hp; [apply Hfresh | apply Hrfresh]; (left || done).
Qed.

Lemma register_method_regex_lookup cls method r :
  method_supported cls (web_path_map r) method ->
  forall m' p',
    lookup_regex_binding (web_path_map (register_method cls method r).1) m' p'
    = if decide (m' = method /\ p' ∈ cls_REGEX_PATHS cls) then Some (Some cls)
      else lookup_regex_binding (web_path_map r) m' p'.
Proof.
  intros [Hs Hrs] m' p'. unfold register_method.
  destruct (dict_get (PATHS (web_path_map r)) method) as [t|]; [|by destruct Hs].
  destruct (register_paths cls method "" (cls_PATHS cls) t (stdout r)) as [t' out1].
  destruct (cls_REGEX_PATHS cls) as [|rp rps] eqn:Erx.
  - simpl. rewrite decide_False; [done|]. intros [_ H]. by apply elem_of_nil in H.
  - destruct (dict_get (REGEX_PATHS (web_path_map r)) method) as [rt|] eqn:Hrt;
      [|by destruct Hrs].
    pose proof (register_paths_lookup cls method " (RegEx)" (rp :: rps) rt out1 p') as Hl.
    destruct (register_paths cls method " (RegEx)" (rp :: rps) rt out1) as [rt' out2].
    unfold lookup_regex_binding. simpl in *.
    destruct (decide (m' = method)) as [->|Hne].
    + rewrite dict_get_set_eq, Hrt, Hl.
      destruct (decide (p' ∈ rp :: rps)).
      * by rewrite decide_True.
      * rewrite decide_False; [done | tauto].
    + rewrite dict_get_set_ne by done.
      rewrite decide_False; [done | tauto].
Qed.

Lemma register_methods_regex_lookup cls ms r :
  (forall m, m ∈ ms -> method_supported cls (web_path_map r) m) ->
  forall m' p',
    lookup_regex_binding (web_path_map (register_methods cls ms r).1) m' p'
    = if decide (m' ∈ ms /\ p' ∈ cls_REGEX_PATHS cls) then Some (Some cls)
      else lookup_regex_binding (web_path_map r) m' p'.
Proof.
  revert r. induction ms as [|method ms IH]; intros r Hsup m' p'; cbn [register_methods].
  - cbn [fst]. rewrite decide_False; [done|]. intros [H _]. by apply elem_of_nil in H.
  - assert (method_supported cls (web_path_map r) method) as Hs0 by (apply Hsup; left).
    pose proof (register_method_regex_lookup cls method r Hs0 m' p') as Hl.
    destruct (register_method_spec cls method r) as (Hok & _).
    specialize (Hok Hs0).
    assert (forall m, m ∈ ms ->
      method_supported cls (web_path_map (register_method cls method r).1) m) as Hsup1.
    { intros m Hm. apply method_supported_step, Hsup. by right. }
    destruct (register_method cls method r) as [r1 res1]; simpl in *. subst res1.
    rewrite (IH r1 Hsup1), Hl.
    destruct (decide (m' ∈ ms /\ p' ∈ cls_REGEX_PATHS cls)) as [[Ha Hb]|Hn].
    + rewrite decide_True; [done|]. split; [by right | done].
    + destruct (decide (m' = method /\ p' ∈ cls_REGEX_PATHS cls)) as [[-> Hb]|Hn2].
      * rewrite decide_True; [done|]. split; [left | done].
      * rewrite decide_False; [done|]. intros [Ha Hb].
        apply elem_of_cons in Ha as [->|Ha]; [apply Hn2 | apply Hn]; done.
Qed.

(** X7: registering a class that passes the checks of registration (at
    least one method, at least one path or pattern, only methods the
    tables know), none of whose (method, path) and (method, pattern)
    pairs is bound and whose lists have no repetition, prints nothing:
    the overwrite warning appears only when something is overwritten.
    The registration succeeds, binds every (method, path) pair to the
    class in the path tables and every (method, pattern) pair to the
    class in the pattern tables. *)
Theorem X7_fresh_registration_is_silent (cls : HandlerClass) (r : Registry)
    (Hvalid : registrable cls (web_path_map r))
    (Hmethods : NoDup (cls_METHODS cls))
    (Hpaths : NoDup (cls_PATHS cls))
    (Hpatterns : NoDup (cls_REGEX_PATHS cls))
    (Hfresh : forall m p, m ∈ cls_METHODS cls -> p ∈ cls_PATHS cls ->
                lookup_binding (web_path_map r) m p = None)
    (Hrfresh : forall m p, m ∈ cls_METHODS cls -> p ∈ cls_REGEX_PATHS cls ->
                 lookup_regex_binding (web_path_map r) m p = None) :
  (init_subclass cls r).2 = Ok tt /\
  stdout (init_subclass cls r).1 = stdout r /\
  (forall m p, m ∈ cls_METHODS cls -> p ∈ cls_PATHS cls ->
     lookup_binding (web_path_map (init_subclass cls r).1) m p = Some (Some cls)) /\
  (forall m p, m ∈ cls_METHODS cls -> p ∈ cls_REGEX_PATHS cls ->
     lookup_regex_binding (web_path_map (init_subclass cls r).1) m p = Some (Some cls)).
Proof.
  split; [by apply registrable_ok|].
  destruct Hvalid as (Hne & Hp & Hsup). unfold init_subclass.
  destruct (cls_METHODS cls) as [|m0 ms] eqn:Ems; [done|].
  assert ((length (cls_PATHS cls) + length (cls_REGEX_PATHS cls) =? 0)%nat = false) as ->.
  { apply Nat.eqb_neq. destruct Hp as [H|H];
      [destruct (cls_PATHS cls) | destruct (cls_REGEX_PATHS cls)]; simpl; try done; lia. }
  cbn [length Nat.eqb]. split; [|split].
  - by apply register_methods_fresh.
  - intros m p Hm Hpp.
    destruct (register_methods_spec cls (m0 :: ms) r Hsup) as (_ & Hl & _).
    rewrite Hl. by rewrite decide_True.
  - intros m p Hm Hpp.
    rewrite (register_methods_regex_lookup cls (m0 :: ms) r Hsup).
    by rewrite decide_True.
Qed.

(** * Further properties of the default headers *)

Lemma dict_get_app_notin {K V : Type} `{EqDecision K} (d1 d2 : list (K * V)) (k : K) :
  k ∉ map fst d1 -> dict_get (d1 ++ d2)%list k = dict_get d2 k.
Proof.
  induction d1 as [|[k1 v1] d1 IH]; simpl; intros H; [done|].
  rewrite decide_False.
  - apply IH. intros Hin. apply H. by right.
  - intros ->. apply H. left.
Qed.

Lemma dict_set_app_notin {K V : Type} `{EqDecision K} (d1 d2 : list (K * V)) (k : K) (v : V) :
  k ∉ map fst d1 -> dict_set (d1 ++ d2)%list k v = (d1 ++ dict_set d2 k v)%list.
Proof.
  induction d1 as [|[k1 v1] d1 IH]; simpl; intros H; [done|].
  rewrite decide_False.
  - rewrite IH; [done|]. intros Hin. apply H. by right.
  - intros ->. apply H. left.
Qed.

Lemma str_items_py_items (items : list (string * string)) :
  str_items (py_items items) = items.
Proof. induction items as [|[k v] items IH]; simpl; [done | by rewrite IH]. Qed.

Lemma py_items_app (a c : list (string * string)) :
  py_items (a ++ c)%list = (py_items a ++ py_items c)%list.
Proof. unfold py_items. apply map_app. Qed.

Lemma acceptable_cons (k v : pyval) (suf : list (pyval * pyval)) :
  acceptable ((k, v) :: suf) =
    match k, v with
    | PyStr name, PyStr _ => negb (has_bad_char name)
    | _, _ => false
    end && acceptable suf.
Proof. reflexivity. Qed.

Lemma cleaned_cons (k v : string) (items : list (string * string)) :
  cleaned ((k, v) :: items) = (k, clean_value v) :: cleaned items.
Proof. reflexivity. Qed.

Lemma set_headers_loop_char (pre : list (string * string)) (suf : list (pyval * pyval)) :
  NoDup (map fst (py_items pre ++ suf)%list) ->
  set_headers_loop (map fst suf) (py_items pre ++ suf)%list =
    if acceptable suf
    then Ok (py_items (pre ++ cleaned (str_items suf))%list)
    else Raise AssertionError.
Proof.
  revert pre. induction suf as [|[k v] suf IH]; intros pre Hnd.
  - simpl. by rewrite !app_nil_r.
  - rewrite acceptable_cons. cbn [map fst set_headers_loop].
    destruct k as [|name|z]; try done.
    destruct (has_bad_char name) eqn:Ebad.
    { by destruct v. }
    assert (PyStr name ∉ map fst (py_items pre)) as Hnotin.
    { rewrite map_app in Hnd. apply NoDup_app in Hnd as (_ & Hdisj & _).
      intros Hin. apply (Hdisj _ Hin). left. }
    rewrite dict_get_app_notin by done. cbn [dict_get]. rewrite decide_True by done.
    destruct v as [|s|z]; try done.
    rewrite dict_set_app_notin by done. cbn [dict_set]. rewrite decide_True by done.
    replace (py_items pre ++ (PyStr name, PyStr (clean_value s)) :: suf)%list
      with (py_items (pre ++ [(name, clean_value s)]) ++ suf)%list
      by (rewrite py_items_app; simpl; by rewrite <- app_assoc).
    rewrite IH.
    + cbn [negb andb str_items]. rewrite cleaned_cons.
      destruct (acceptable suf); [|done].
      by rewrite <- app_assoc.
    + rewrite py_items_app. simpl. rewrite <- app_assoc. simpl.
      rewrite !map_app in *. simpl in *. done.
Qed.

Lemma set_headers_spec (stored : list (string * string)) (headers : list (pyval * pyval)) :
  NoDup (dict_keys headers) ->
  set_headers stored headers =
    if acceptable headers
    then (cleaned (str_items headers), Ok (cleaned (str_items headers)))
    else (stored, Raise AssertionError).
Proof.
  intros Hdict. unfold set_headers, dict_keys.
  pose proof (set_headers_loop_char [] headers) as H. simpl in H.
  rewrite H by done.
  destruct (acceptable headers); [|done].
  by rewrite str_items_py_items.
Qed.

(** X8: for a mapping (a dictionary, so with distinct keys) the call
    succeeds exactly when every key and value is a string and no key holds
    one of the seven characters; it then stores and returns the same
    entries in the same order with every CR and LF of a value replaced by
    a space, and otherwise raises the assertion error and keeps what was
    stored. *)
Theorem X8_set_headers_characterised
    (stored : list (string * string)) (headers : list (pyval * pyval))
    (Hdict : NoDup (dict_keys headers)) :
  set_headers stored headers =
    if acceptable headers
    then (cleaned (str_items headers), Ok (cleaned (str_items headers)))
    else (stored, Raise AssertionError).
Proof. by apply set_headers_spec. Qed.

Lemma clean_value_fixed (s : string) :
  char_in "013" s = false -> char_in "010" s = false -> clean_value s = s.
Proof.
  unfold clean_value. induction s as [|x s IH]; [done|].
  rewrite !char_in_cons. intros H1 H2.
  apply orb_false_iff in H1 as [H1 H1'], H2 as [H2 H2'].
  cbn [str_replace1]. rewrite Ascii.eqb_sym in H1, H2.
  rewrite H2. rewrite H1. by rewrite IH.
Qed.

Lemma clean_value_idem (s : string) : clean_value (clean_value s) = clean_value s.
Proof. destruct (clean_value_ok s). by apply clean_value_fixed. Qed.

Lemma cleaned_idem (items : list (string * string)) : cleaned (cleaned items) = cleaned items.
Proof.
  induction items as [|[k v] items IH]; simpl; [done|].
  by rewrite clean_value_idem, IH.
Qed.

Lemma acceptable_cleaned (items : list (string * string)) :
  acceptable (py_items (cleaned items)) = acceptable (py_items items).
Proof. induction items as [|[k v] items IH]; simpl; [done | by rewrite IH]. Qed.

Lemma cleaned_keys (items : list (string * string)) :
  map fst (cleaned items) = map fst items.
Proof. induction items as [|[k v] items IH]; simpl; [done | by rewrite IH]. Qed.

Lemma py_items_str_items (headers : list (pyval * pyval)) :
  acceptable headers = true -> py_items (str_items headers) = headers.
Proof.
  induction headers as [|[k v] headers IH]; simpl; [done|].
  destruct k as [|name|z]; try done. destruct v as [|s|z]; try done.
  intros H. apply andb_true_iff in H as [_ H]. simpl. by rewrite IH.
Qed.

Lemma py_items_keys_NoDup (items : list (string * string)) :
  NoDup (map fst (py_items items)) <-> NoDup (map fst items).
Proof.
  unfold py_items. rewrite map_map. simpl.
  replace (map (fun x => PyStr (fst x)) items) with (PyStr <$> map fst items)
    by (by rewrite <- list_fmap_compose).
  split; [apply NoDup_fmap_1 | apply NoDup_fmap_2]. by intros ?? [=].
Qed.

(** X9: what an accepted call stored is stored unchanged when it is
    submitted again: the stored defaults are a fixed point of
    [set_headers]. *)
Theorem X9_stored_defaults_are_stable
    (stored stored' r stored2 : list (string * string)) (headers : list (pyval * pyval))
    (Hdict : NoDup (dict_keys headers))
    (Haccepted : set_headers stored headers = (stored', Ok r)) :
  set_headers stored2 (py_items stored') = (stored', Ok stored').
Proof.
  rewrite set_headers_spec in Haccepted by done.
  destruct (acceptable headers) eqn:Eacc; [|done].
  inversion Haccepted; subst. clear Haccepted.
  rewrite set_headers_spec.
  - rewrite acceptable_cleaned, py_items_str_items, Eacc by done.
    by rewrite str_items_py_items, cleaned_idem.
  - unfold dict_keys. apply py_items_keys_NoDup. rewrite cleaned_keys.
    apply py_items_keys_NoDup. by rewrite py_items_str_items.
Qed.

(** * Further properties of body acquisition *)

Local Open Scope list_scope.

Lemma has_content_len_loop_spec py hs names acc :
  has_content_len_loop py hs names acc =
    acc || (names_have py names "content-length"
            && bool_decide (is_Some (declared_length py hs))).
Proof.
  revert acc. induction names as [|hdr names IH]; intros acc.
  - simpl. by rewrite orb_false_r.
  - cbn [has_content_len_loop names_have existsb].
    fold (names_have py names "content-length").
    unfold header_int. rewrite headers_getitem_first.
    destruct (decide (str_lower py hdr = "content-length")) as [E|E].
    + rewrite E, bool_decide_eq_true_2 by done. unfold declared_length in *.
      destruct (first_value py hs "content-length") as [v|];
        [destruct (int_of_str py v) as [n|]|];
        rewrite IH; simpl;
        destruct acc, (names_have py names "content-length"); done.
    + rewrite bool_decide_eq_false_2 by done. by rewrite IH.
Qed.

Lemma has_content_len_declared py hs :
  has_content_len_loop py hs (dict_keys hs) false
    = bool_decide (is_Some (declared_length py hs)).
Proof.
  rewrite has_content_len_loop_spec. simpl.
  destruct (names_have py (dict_keys hs) "content-length") eqn:E; [done|].
  unfold declared_length. by rewrite first_value_names.
Qed.







(** X11: a request without a positive numeric Content-Length (none, a
    malformed one, zero or a negative one) and without "chunked" in its
    first Transfer-Encoding field has an empty body and leaves the stream
    untouched, whatever its method and its Content-Encoding, and needs no
    fuel; the only failure is that of [urlparse] on the target, which
    ends the request with [ValueError]. *)
Theorem X11_no_body_expected
    (py : PyRuntime) (raw : RawRequest) (s : Stream) (fuel : nat)
    (Hlen : forall n, declared_length py (raw_headers raw) = Some n -> n <= 0)
    (Hchunked : announces_chunked py (raw_headers raw) = false) :
  _init_response py fuel raw s =
    match urlparse py (raw_path raw) with
    | Some parsed_path => Some (Ok (make_request py raw parsed_path [], s))
    | None => Some (Raise ValueError)
    end /\
  (forall parsed_path, req_payload (make_request py raw parsed_path []) = []).
Proof.
  split; [|done]. unfold _init_response.
  destruct (urlparse py (raw_path raw)) as [parsed_path|]; [|done].
  destruct (_ || _); [|done].
  unfold acquire_body. rewrite body_plan_content_len, body_plan_chunked, Hchunked.
  assert ((0 <? match declared_length py (raw_headers raw) with
                | Some n => n | None => 0 end)%Z = false) as ->.
  { apply Z.ltb_ge. destruct (declared_length py (raw_headers raw)) as [n|]; [by apply Hlen | done]. }
  rewrite decompress_body_spec. by destruct (gzip_encoded py (raw_headers raw)).
Qed.

(** X12: the header loops compare field names in lower case and, of
    several fields with one name, use the value of the first only: the
    length is the number in the first Content-Length field (0 when that
    is not a number, even if a later one is), chunking is decided by the
    first Transfer-Encoding field, compression by the first
    Content-Encoding field, and a Content-Length counts as present
    exactly when the first one is a number. *)
Theorem X12_first_field_decides (py : PyRuntime) (hs : list (string * string)) :
  content_len (body_plan py hs)
    = match declared_length py hs with Some n => n | None => 0 end /\
  chunked (body_plan py hs) = announces_chunked py hs /\
  compression (body_plan py hs)
    = match first_value py hs "content-encoding" with
      | Some v => if names_scheme v then Some v else None
      | None => None
      end /\
  has_content_len_loop py hs (dict_keys hs) false
    = bool_decide (is_Some (declared_length py hs)) /\
  (forall name, headers_getitem py hs name = first_value py hs (str_lower py name)).
Proof.
  split; [apply body_plan_content_len|].
  split; [apply body_plan_chunked|].
  split; [apply body_plan_compression|].
  split; [apply has_content_len_declared | apply headers_getitem_first].
Qed.

Lemma chunked_loop_truncated py (cs : list Chunk) :
  int_of_bytes_16 py [] = None ->
  can_read py 2 ->
  Forall (chunk_ok py) cs ->
  Forall (fun c => can_read py (Z.of_nat (length (payload c)))) cs ->
  forall (fuel : nat) (acc : bytes) (s : Stream),
    buffered s (List.concat (map chunk_wire cs)) ->
    (length cs < fuel)%nat ->
    chunked_loop py fuel acc s = Some (Raise ValueError).
Proof.
  intros Hint Htwo Hcs Hsz. revert Hsz.
  induction Hcs as [|c cs Hc Hcs IH]; intros Hsz fuel acc s Hb Hf.
  - destruct fuel as [|fuel]; [simpl in Hf; lia|].
    destruct (rfile_readline_buffered s [] Hb) as [H1 _].
    cbn [chunked_loop]. destruct (rfile_readline s) as [line s1]. cbn [fst] in H1.
    subst line. unfold strip. simpl. by rewrite Hint.
  - destruct fuel as [|fuel]; [simpl in Hf; lia|].
    destruct Hc as (Hline & Hpay & Htail).
    unfold chunk_wire in Hb. cbn [map List.concat] in Hb.
    rewrite <- !app_assoc in Hb.
    destruct (readline_size_line py s _ _ _ Hline Hb) as [H1 H2].
    cbn [chunked_loop]. destruct (rfile_readline s) as [line s1]. cbn [fst snd] in *.
    subst line. rewrite (proj2 Hline).
    apply Forall_cons in Hsz as [Hsz1 Hsz].
    destruct (rfile_read_buffered py (length (payload c)) s1 _ Hsz1 H2) as (s2 & -> & H3).
    rewrite take_app_length, drop_app_length in *.
    destruct (rfile_read_two py s2 _ Htwo H3) as (s3 & -> & H4).
    rewrite <- Htail, drop_app_length in H4.
    assert ((Z.of_nat (length (payload c)) =? 0)%Z = false) as ->.
    { apply Z.eqb_neq. destruct (payload c); [done | simpl; lia]. }
    apply IH; [done | done | simpl in Hf; lia].
Qed.

(** X13: a chunked body that ends after complete chunks (each of a size
    that [read] serves, as the two bytes after it are) but before the
    chunk of size zero does not yield the bytes received so far: the next
    size line is empty and the request fails with [ValueError] (given
    that [int] rejects the empty line, as Python's does). *)
Theorem X13_truncated_chunked_body_raises
    (py : PyRuntime) (raw : RawRequest) (cs : list Chunk) (fuel : nat)
    (Hint : int_of_bytes_16 py [] = None)
    (Hcmd : raw_command raw = "POST" \/ raw_command raw = "PUT")
    (Hlen : forall n, declared_length py (raw_headers raw) = Some n -> n <= 0)
    (Hchunked : announces_chunked py (raw_headers raw) = true)
    (Hchunks : Forall (chunk_ok py) cs)
    (Htail : can_read py 2)
    (Hsizes : Forall (fun c => can_read py (Z.of_nat (length (payload c)))) cs)
    (Hfuel : (length cs < fuel)%nat) :
  _init_response py fuel raw [List.concat (map chunk_wire cs)] = Some (Raise ValueError).
Proof.
  assert (bool_decide (raw_command raw = "POST") || bool_decide (raw_command raw = "PUT")
          = true) as Hc.
  { destruct Hcmd as [-> | ->]; done. }
  unfold _init_response.
  destruct (urlparse py (raw_path raw)) as [parsed_path|]; [|done].
  rewrite Hc. cbn [orb].
  unfold acquire_body. rewrite body_plan_content_len, body_plan_chunked, Hchunked.
  assert ((0 <? match declared_length py (raw_headers raw) with
                | Some n => n | None => 0 end)%Z = false) as ->.
  { apply Z.ltb_ge. destruct (declared_length py (raw_headers raw)) as [n|]; [by apply Hlen | done]. }
  rewrite (chunked_loop_truncated py cs Hint Htail Hchunks Hsizes fuel []);
    [done | by left | done].
Qed.

Local Open Scope string_scope.

(** * Further properties of the lookups handlers use *)

Lemma query_find_lower_first py (Q q1 q2 : list (string * list string)) k vs lkey :
  (forall k', k' ∈ map fst q1 -> str_lower py k' <> lkey) ->
  str_lower py k = lkey ->
  query_find_lower py Q (map fst (q1 ++ (k, vs) :: q2)%list) lkey = dict_get Q k.
Proof.
  intros Hq1 Hk. induction q1 as [|[k1 v1] q1 IH]; simpl.
  - by rewrite decide_True.
  - rewrite decide_False by (apply Hq1; left).
    apply IH. intros k' Hin. apply Hq1. by right.
Qed.

Lemma query_find_lower_none py (Q : list (string * list string)) keys lkey :
  (forall k', k' ∈ keys -> str_lower py k' <> lkey) ->
  query_find_lower py Q keys lkey = None.
Proof.
  induction keys as [|k keys IH]; intros H; simpl; [done|].
  rewrite decide_False by (apply H; left).
  apply IH. intros k' Hin. apply H. by right.
Qed.

(** X14: in case-insensitive mode the lookup returns the values of the
    first key of the query, in its order, that equals the requested key
    up to case, and the one-element list of the default when no key
    does. *)
Theorem X14_query_param_ignoring_case
    (py : PyRuntime) (self : Request) (key : string) (default_val : pyval) :
  (forall (q1 q2 : list (string * list string)) k vs,
     query self = (q1 ++ (k, vs) :: q2)%list ->
     (forall k', k' ∈ map fst q1 -> str_lower py k' <> str_lower py key) ->
     str_lower py k = str_lower py key ->
     get_url_query_param py self key default_val false = ObjList (map PyStr vs)) /\
  ((forall k', k' ∈ dict_keys (query self) -> str_lower py k' <> str_lower py key) ->
   get_url_query_param py self key default_val false = ObjList [default_val]).
Proof.
  unfold get_url_query_param, dict_keys. cbn [negb]. split.
  - intros q1 q2 k vs Hq Hq1 Hk. rewrite Hq at 2.
    rewrite (query_find_lower_first py _ q1 q2 k vs) by done.
    rewrite Hq, dict_get_app_notin.
    + simpl. by rewrite decide_True.
    + intros Hin. apply (Hq1 k Hin). done.
  - intros H. by rewrite query_find_lower_none.
Qed.

Lemma query_find_lower_elem py (Q : list (string * list string)) keys lkey vs :
  query_find_lower py Q keys lkey = Some vs -> exists k, (k, vs) ∈ Q.
Proof.
  induction keys as [|k keys IH]; simpl; [done|].
  destruct (decide (str_lower py k = lkey)); [|exact IH].
  intros H. exists k. by apply dict_get_Some_elem.
Qed.

(** X15: when every key of the parsed query has at least one value (as
    [parse_qs] yields it), the lookup returns a non-empty list in both
    modes, for present and for absent keys: taking element 0 of the
    result, as the handlers do, never fails. *)
Theorem X15_query_param_result_not_empty
    (py : PyRuntime) (self : Request) (key : string) (default_val : pyval)
    (case_sensitive : bool)
    (Hvalues : forall k vs, (k, vs) ∈ query self -> vs <> []) :
  exists v l, get_url_query_param py self key default_val case_sensitive
              = ObjList (v :: l).
Proof.
  assert (forall k vs, (k, vs) ∈ query self -> exists v l, str_list vs = ObjList (v :: l))
    as Hne.
  { intros k vs Hin. destruct vs as [|v vs]; [by apply Hvalues in Hin|].
    by exists (PyStr v), (map PyStr vs). }
  unfold get_url_query_param. destruct case_sensitive; cbn [negb].
  - destruct (dict_get (query self) key) as [vs|] eqn:E; [|by eauto].
    apply dict_get_Some_elem in E. by apply (Hne key).
  - destruct (query_find_lower _ _ _ _) as [vs|] eqn:E; [|by eauto].
    apply query_find_lower_elem in E as [k Hin]. by apply (Hne k).
Qed.

Lemma headers_getitem_split py (h1 h2 : list (string * string)) k v key :
  (forall k', k' ∈ map fst h1 -> str_lower py k' <> str_lower py key) ->
  str_lower py k = str_lower py key ->
  headers_getitem py (h1 ++ (k, v) :: h2)%list key = Some v.
Proof.
  intros Hh1 Hk. induction h1 as [|[k1 v1] h1 IH]; simpl.
  - by rewrite decide_True.
  - rewrite decide_False by (apply Hh1; left).
    apply IH. intros k' Hin. apply Hh1. by right.
Qed.

Lemma headers_getitem_none py (hs : list (string * string)) key :
  (forall k', k' ∈ map fst hs -> str_lower py k' <> str_lower py key) ->
  headers_getitem py hs key = None.
Proof.
  induction hs as [|[k v] hs IH]; intros H; simpl; [done|].
  rewrite decide_False by (apply H; left).
  apply IH. intros k' Hin. apply H. by right.
Qed.

(** X16: [get_request_header] ignores case: it returns the value of the
    first field whose name equals the key up to case, the default exactly
    when no field name does, and the same result for two keys that differ
    in case only. *)
Theorem X16_request_header_ignoring_case
    (py : PyRuntime) (self : Request) (key : string) (default_val : pyval) :
  (forall (h1 h2 : list (string * string)) k v,
     req_headers self = (h1 ++ (k, v) :: h2)%list ->
     (forall k', k' ∈ map fst h1 -> str_lower py k' <> str_lower py key) ->
     str_lower py k = str_lower py key ->
     get_request_header py self key default_val = PyStr v) /\
  ((forall k', k' ∈ map fst (req_headers self) -> str_lower py k' <> str_lower py key) ->
   get_request_header py self key default_val = default_val) /\
  (forall key', str_lower py key' = str_lower py key ->
     get_request_header py self key' default_val
       = get_request_header py self key default_val).
Proof.
  unfold get_request_header. split; [|split].
  - intros h1 h2 k v -> Hh1 Hk. by rewrite (headers_getitem_split py h1 h2 k v key).
  - intros H. by rewrite headers_getitem_none.
  - intros key' Hk. by rewrite !headers_getitem_first, Hk.
Qed.

(** * The echo endpoint end to end *)



(** * The further properties at concrete inputs *)

Lemma X1_witness :
  dispatch example_paths [] (request_of "GET" "/nowhere")
    = Ok {| status_code := 404; headers := []; body := [] |}.
Proof.
  apply (X1_unknown_path_not_found example_paths [] (request_of "GET" "/nowhere")).
  intros m t H. unfold example_paths in H. elem_cases H; reflexivity.
Defined.

Lemma X2_witness :
  exists t cls,
    ("GET", t) ∈ broken_paths /\ t !! "/broken" = Some (Some cls) /\
    (handle cls (request_of "GET" "/broken") (RESP_OK []) = Raised AssertionError \/
     (handle cls (request_of "GET" "/broken") (RESP_OK []) = Returned None /\
      AssertionError = AssertionError)).
Proof.
  apply (X2_plain_request_fails_only_in_handler broken_paths []
           (request_of "GET" "/broken") AssertionError).
  - split; discriminate.
  - vm_compute. reflexivity.
Defined.

Lemma X3_witness :
  exists r, dispatch example_paths [] (request_of "OPTIONS" "/example2") = Ok r /\
            status_code r = 204 /\
            dict_get (headers r) "Allow" = Some "POST, PUT".
Proof.
  destruct (X3_options_allow_header example_paths [] (request_of "OPTIONS" "/example2")
              "POST" ExampleEndpoint02) as (r & methods & H1 & H2 & _ & H3 & H4 & _).
  - reflexivity.
  - by_computation.
  - reflexivity.
  - reflexivity.
  - exists r. split; [exact H1|]. split; [exact H2|].
    rewrite H3, H4. vm_compute. reflexivity.
Defined.

Lemma X4_witness :
  exists code fields after,
    head_example_calls = (send_response code :: fields ++ end_headers :: after)%list /\
    after = [].
Proof.
  destruct (X4_answer_shape example_runtime 6 example_server
              (raw_request_of "HEAD" "/example01" []) [] head_example_calls)
    as (code & fields & after & H1 & _ & _ & H2).
  - vm_compute. reflexivity.
  - exists code, fields, after. split; [exact H1 | by apply H2].
Defined.

Lemma replacement_registrable : registrable Replacement01 (web_path_map registry_examples).
Proof.
  split; [discriminate|]. split; [left; discriminate|].
  intros m Hm. simpl in Hm. elem_cases Hm. split.
  - vm_compute. eauto.
  - intros Hne. by destruct Hne.
Defined.

Lemma X5_witness :
  dispatch (PATHS (web_path_map (init_subclass Replacement01 registry_examples).1)) []
    (request_of "GET" "/example01")
  = Ok {| status_code := 202; headers := []; body := bytes_of "replaced" |}.
Proof.
  refine (proj2 (X5_registered_class_is_routed Replacement01 registry_examples []
                   (request_of "GET" "/example01") _ _ _ _ _)).
  - by_computation.
  - exact replacement_registrable.
  - left.
  - left.
  - split; discriminate.
Defined.

Lemma X6_witness : (init_subclass Replacement01 registry_examples).2 = Ok tt.
Proof.
  apply (proj2 (proj1 (X6_registration_checks Replacement01 registry_examples))).
  exact replacement_registrable.
Defined.

Lemma X7_witness :
  stdout (init_subclass ExampleEndpoint01 registry_init).1 = [] /\
  lookup_binding (web_path_map (init_subclass ExampleEndpoint01 registry_init).1)
    "GET" "/example01" = Some (Some ExampleEndpoint01).
Proof.
  refine ((fun H => conj (proj1 (proj2 H))
                      (proj1 (proj2 (proj2 H)) "GET" "/example01" _ _))
            (X7_fresh_registration_is_silent ExampleEndpoint01 registry_init
               _ _ _ _ _ _)).
  - left.
  - left.
  - split; [discriminate|]. split; [left; discriminate|].
    intros m Hm. simpl in Hm. elem_cases Hm. split.
    + vm_compute. eauto.
    + intros Hne. by destruct Hne.
  - by_computation.
  - by_computation.
  - by_computation.
  - intros m p Hm Hp. simpl in Hm, Hp. elem_cases Hm. elem_cases Hp. reflexivity.
  - intros m p Hm Hp. simpl in Hp. elem_cases Hp.
Defined.

Lemma X8_witness :
  set_headers [] [(PyStr "X-A", PyStr two_lines); (PyStr "Connection", PyStr "close")]
    = ([("X-A", "line1 line2"); ("Connection", "close")],
       Ok [("X-A", "line1 line2"); ("Connection", "close")]) /\
  set_headers [("Connection", "close")] [(PyStr "X-A", PyInt 1)]
    = ([("Connection", "close")], Raise AssertionError).
Proof.
  split.
  - refine (X8_set_headers_characterised [] _ _). by_computation.
  - refine (X8_set_headers_characterised _ _ _). by_computation.
Defined.

Lemma X9_witness :
  set_headers [("Old", "x")] (py_items [("X-A", "line1 line2")])
    = ([("X-A", "line1 line2")], Ok [("X-A", "line1 line2")]).
Proof.
  refine (X9_stored_defaults_are_stable [] [("X-A", "line1 line2")]
            [("X-A", "line1 line2")] [("Old", "x")] [(PyStr "X-A", PyStr two_lines)] _ _).
  - by_computation.
  - reflexivity.
Defined.


Lemma X11_witness :
  _init_response example_runtime 0 (raw_request_of "GET" "/example01" [("Host", "h")])
    [bytes_of "xyz"]
  = Some (Ok (make_request example_runtime
                (raw_request_of "GET" "/example01" [("Host", "h")])
                ("/example01", "") [],
              [bytes_of "xyz"])).
Proof.
  refine (proj1 (X11_no_body_expected example_runtime _ _ 0 _ _)).
  - intros n Hn. vm_compute in Hn. discriminate Hn.
  - reflexivity.
Defined.

Lemma X13_witness :
  _init_response example_runtime 6 (post_with [("Transfer-Encoding", "chunked")])
    [List.concat (map chunk_wire [hello_chunk])]
  = Some (Raise ValueError).
Proof.
  apply (X13_truncated_chunked_body_raises example_runtime
           (post_with [("Transfer-Encoding", "chunked")]) [hello_chunk] 6).
  - reflexivity.
  - by left.
  - intros n Hn. discriminate Hn.
  - reflexivity.
  - constructor; [|constructor]. split; [|split].
    + split; [|reflexivity]. exists [x35; x0d]. split; [reflexivity|].
      intros Hin. elem_cases Hin.
    + discriminate.
    + reflexivity.
  - split; reflexivity.
  - constructor; [split; reflexivity | constructor].
  - vm_compute. lia.
Defined.

Lemma X14_witness :
  get_url_query_param example_runtime mixed_case_request "seanp" (PyStr "") false
    = ObjList [PyStr "v1"; PyStr "v2"] /\
  get_url_query_param example_runtime mixed_case_request "absent" (PyStr "") false
    = ObjList [PyStr ""].
Proof.
  split.
  - refine (proj1 (X14_query_param_ignoring_case example_runtime mixed_case_request
                     "seanp" (PyStr "")) [] [("other", ["w"])] "SeanP" ["v1"; "v2"] _ _ _).
    + reflexivity.
    + intros k' Hin. elem_cases Hin.
    + reflexivity.
  - refine (proj2 (X14_query_param_ignoring_case example_runtime mixed_case_request
                     "absent" (PyStr "")) _).
    intros k' Hin. simpl in Hin. elem_cases Hin; discriminate.
Defined.

Lemma X15_witness :
  exists v l,
    get_url_query_param example_runtime mixed_case_request "absent" (PyStr "") true
      = ObjList (v :: l).
Proof.
  apply (X15_query_param_result_not_empty example_runtime mixed_case_request
           "absent" (PyStr "") true).
  intros k vs Hin. simpl in Hin. elem_cases Hin; discriminate.
Defined.

Lemma X16_witness :
  get_request_header example_runtime mixed_case_request "X-SEANP" (PyStr "")
    = PyStr "first" /\
  get_request_header example_runtime mixed_case_request "Accept" PyNone = PyNone.
Proof.
  split.
  - refine (proj1 (X16_request_header_ignoring_case example_runtime mixed_case_request
                     "X-SEANP" (PyStr ""))
              [("Host", "localhost")] [("X-SeanP", "second")] "x-seanp" "first" _ _ _).
    + reflexivity.
    + intros k' Hin. simpl in Hin. elem_cases Hin. discriminate.
    + reflexivity.
  - refine (proj1 (proj2 (X16_request_header_ignoring_case example_runtime
                            mixed_case_request "Accept" PyNone)) _).
    intros k' Hin. simpl in Hin. elem_cases Hin; discriminate.
Defined.

